(** * Patient record store: a shallow embedding of [main.py]

    The patient table is a pandas DataFrame with the fifteen columns of
    [DEFAULT_COLUMNS].  A row is a record of cells; a cell is a piece of
    text, an integer, or the missing value (NaN).  Every operation of the
    application that reads or changes the table is a function on
    [table := list row]; dialogs are results of an error type. *)

From Stdlib Require Import ZArith List Bool Lia String Ascii.
From Stdlib Require Import DecimalString DecimalPos DecimalZ Permutation Sorted QArith.
Import ListNotations.
Local Open Scope Z_scope.
Local Open Scope string_scope.
Local Open Scope list_scope.

(** ** Cells and text *)

Module Py.

(** Characters removed by [str.strip()] (the ASCII ones). *)
Definition is_space (a : ascii) : bool :=
  let n := nat_of_ascii a in
  (((9 <=? n) && (n <=? 13)) || ((28 <=? n) && (n <=? 32)))%nat.

Fixpoint lstrip (s : string) : string :=
  match s with
  | String a s' => if is_space a then lstrip s' else s
  | EmptyString => EmptyString
  end.

Fixpoint rstrip (s : string) : string :=
  match s with
  | EmptyString => EmptyString
  | String a s' =>
      match rstrip s' with
      | EmptyString => if is_space a then EmptyString else String a EmptyString
      | t => String a t
      end
  end.

Definition strip (s : string) : string := rstrip (lstrip s).

(** [str(n)] for an integer. *)
Definition str_int (z : Z) : string := NilZero.string_of_int (Z.to_int z).

(** Digits only, at least one: the body of an integer literal. *)
Definition digits (s : string) : option Z :=
  option_map (fun d => Z.of_int (Decimal.Pos d)) (NilZero.uint_of_string s).

(** [int(s)]: surrounding blanks are dropped, one sign is allowed, the rest
    is decimal digits.  [None] stands for [ValueError]. *)
Definition int (s : string) : option Z :=
  match strip s with
  | String "-" t => option_map Z.opp (digits t)
  | String "+" t => digits t
  | t => digits t
  end.

(** Every character of the text satisfies [p]. *)
Fixpoint all_chars (p : ascii -> bool) (s : string) : bool :=
  match s with
  | EmptyString => true
  | String a s' => p a && all_chars p s'
  end.

Definition not_space (a : ascii) : bool := negb (is_space a).

(** [s.isdigit()] on ASCII text: one decimal digit or more. *)
Definition isdigit (s : string) : bool :=
  match NilZero.uint_of_string s with Some _ => true | None => false end.

End Py.

(** A cell of the DataFrame. *)
Inductive cell : Type :=
| CStr (s : string)
| CInt (z : Z)
| CNaN.

Definition cell_eqb (a b : cell) : bool :=
  match a, b with
  | CStr s, CStr t => String.eqb s t
  | CInt x, CInt y => Z.eqb x y
  | CNaN, CNaN => true
  | _, _ => false
  end.

(** [str(cell)]. *)
Definition cell_str (c : cell) : string :=
  match c with
  | CStr s => s
  | CInt z => Py.str_int z
  | CNaN => "nan"
  end.

(** [pd.to_numeric(..., errors='coerce')] on one cell: integer literals are
    parsed, everything else is coerced to the missing value.  The embedding
    covers the integer literals, which is what the application itself writes
    into [SerialNo] and [Age]. *)
Definition to_numeric (c : cell) : option Z :=
  match c with
  | CStr s => Py.int s
  | CInt z => Some z
  | CNaN => None
  end.

(** ** Schema *)

Inductive column : Type :=
| SerialNo | PhotoPath | Name | Email | Gender | Age | Address
| PhoneNo | Occupation | AadharNo | Symptoms | Treatment
| StartDate | EndDate | Satisfied.

Definition DEFAULT_COLUMNS : list column :=
  [SerialNo; PhotoPath; Name; Email; Gender; Age; Address;
   PhoneNo; Occupation; AadharNo; Symptoms; Treatment;
   StartDate; EndDate; Satisfied].

Definition PAGE_SIZE : nat := 24.

Definition column_eqb (a b : column) : bool :=
  match a, b with
  | SerialNo, SerialNo | PhotoPath, PhotoPath | Name, Name | Email, Email
  | Gender, Gender | Age, Age | Address, Address | PhoneNo, PhoneNo
  | Occupation, Occupation | AadharNo, AadharNo | Symptoms, Symptoms
  | Treatment, Treatment | StartDate, StartDate | EndDate, EndDate
  | Satisfied, Satisfied => true
  | _, _ => false
  end.

Record row : Type := mkRow {
  rSerialNo : cell; rPhotoPath : cell; rName : cell; rEmail : cell;
  rGender : cell; rAge : cell; rAddress : cell; rPhoneNo : cell;
  rOccupation : cell; rAadharNo : cell; rSymptoms : cell; rTreatment : cell;
  rStartDate : cell; rEndDate : cell; rSatisfied : cell }.

Definition table : Type := list row.

(** [r[c]] *)
Definition get (c : column) (r : row) : cell :=
  match c with
  | SerialNo => rSerialNo r | PhotoPath => rPhotoPath r | Name => rName r
  | Email => rEmail r | Gender => rGender r | Age => rAge r
  | Address => rAddress r | PhoneNo => rPhoneNo r
  | Occupation => rOccupation r | AadharNo => rAadharNo r
  | Symptoms => rSymptoms r | Treatment => rTreatment r
  | StartDate => rStartDate r | EndDate => rEndDate r
  | Satisfied => rSatisfied r
  end.

(** [df.at[idx, c] = v] on the row at [idx]. *)
Definition set (c : column) (v : cell) (r : row) : row :=
  let '(mkRow a b n e g ag ad p o aa sy t sd ed sa) := r in
  match c with
  | SerialNo => mkRow v b n e g ag ad p o aa sy t sd ed sa
  | PhotoPath => mkRow a v n e g ag ad p o aa sy t sd ed sa
  | Name => mkRow a b v e g ag ad p o aa sy t sd ed sa
  | Email => mkRow a b n v g ag ad p o aa sy t sd ed sa
  | Gender => mkRow a b n e v ag ad p o aa sy t sd ed sa
  | Age => mkRow a b n e g v ad p o aa sy t sd ed sa
  | Address => mkRow a b n e g ag v p o aa sy t sd ed sa
  | PhoneNo => mkRow a b n e g ag ad v o aa sy t sd ed sa
  | Occupation => mkRow a b n e g ag ad p v aa sy t sd ed sa
  | AadharNo => mkRow a b n e g ag ad p o v sy t sd ed sa
  | Symptoms => mkRow a b n e g ag ad p o aa v t sd ed sa
  | Treatment => mkRow a b n e g ag ad p o aa sy v sd ed sa
  | StartDate => mkRow a b n e g ag ad p o aa sy t v ed sa
  | EndDate => mkRow a b n e g ag ad p o aa sy t sd v sa
  | Satisfied => mkRow a b n e g ag ad p o aa sy t sd ed v
  end.

(** [df[c]]: one column of the table, in row order. *)
Definition col (c : column) (df : table) : list cell := map (get c) df.

(** ** Persistence: [save_patients] followed by [load_patients] *)

(** Text that [read_excel] reads back as the missing value. *)
Definition NA_VALUES : list string :=
  [""; "#N/A"; "#N/A N/A"; "#NA"; "-1.#IND"; "-1.#QNAN"; "-NaN"; "-nan";
   "1.#IND"; "1.#QNAN"; "<NA>"; "N/A"; "NA"; "NULL"; "NaN"; "None";
   "n/a"; "nan"; "null"].

Definition is_na_text (s : string) : bool := existsb (String.eqb s) NA_VALUES.

(** Columns read with [dtype = str] by [load_patients]. *)
Definition str_typed (c : column) : bool :=
  match c with SerialNo | AadharNo | PhoneNo => true | _ => false end.

(** One cell after the file round trip ([to_excel] then [read_excel]): a
    blank, or one of the other missing-value markers, comes back missing; an
    integer in a column read with [dtype = str] comes back as its decimal
    text; other text comes back as it was written. *)
Definition reload_cell (c : column) (v : cell) : cell :=
  match v with
  | CStr s => if is_na_text s then CNaN else CStr s
  | CInt z => if str_typed c then CStr (Py.str_int z) else CInt z
  | CNaN => CNaN
  end.

Definition reload_row (r : row) : row :=
  mkRow (reload_cell SerialNo (rSerialNo r)) (reload_cell PhotoPath (rPhotoPath r))
        (reload_cell Name (rName r)) (reload_cell Email (rEmail r))
        (reload_cell Gender (rGender r)) (reload_cell Age (rAge r))
        (reload_cell Address (rAddress r)) (reload_cell PhoneNo (rPhoneNo r))
        (reload_cell Occupation (rOccupation r)) (reload_cell AadharNo (rAadharNo r))
        (reload_cell Symptoms (rSymptoms r)) (reload_cell Treatment (rTreatment r))
        (reload_cell StartDate (rStartDate r)) (reload_cell EndDate (rEndDate r))
        (reload_cell Satisfied (rSatisfied r)).

(** [save_patients]: the table is written and read back. *)
Definition save_patients (df : table) : table := map reload_row df.

(** ** Identifier allocation *)





(** ** Dialog outcomes *)

(** What an operation tells the user instead of changing the table. *)
Inductive error : Type :=
| PleaseFill (field : string)        (* "Please fill <field>" *)
| AgeNotNumeric                      (* "Age must be a numeric value." *)
| SerialNotNumeric                   (* "Serial must be numeric" / "... a numeric value." *)
| SerialExists (serial : string)     (* "Serial number <serial> already exists." *)
| NotFound                           (* "Could not find patient to update." *)
| NothingChecked                     (* "No checked records to delete" *)
| Cancelled.                         (* the dialog was dismissed; nothing is said *)

Inductive outcome (A : Type) : Type :=
| Done (a : A)
| Rejected (e : error).
Arguments Done {A} a.
Arguments Rejected {A} e.

(** [self.patients_df] once the operation has returned: a rejected
    operation has not assigned it. *)
Definition table_after {A : Type} (df : table) (o : outcome A) (new : A -> table)
  : table :=
  match o with
  | Done a => new a
  | Rejected _ => df
  end.

(** [x in df['SerialNo'].values] for a piece of text [x]: only a text cell
    can be equal to it. *)
Definition in_values (x : string) (cells : list cell) : bool :=
  existsb (fun c => match c with CStr t => String.eqb x t | _ => false end) cells.

(** ** Registration: [_new_submit] *)

(** The entries of the registration form ([self.new_vars]); [photo] is the
    path the copied photo was stored at, or empty. *)
Record new_vars : Type := {
  serial : string; name : string; email : string; gender : string;
  age : string; address : string; phone : string; occupation : string;
  aadhar : string; symptoms : string; treatment : string;
  start_date : string; end_date : string; satisfied : string;
  photo : string }.

Definition is_empty (s : string) : bool :=
  match s with EmptyString => true | _ => false end.

(** The loop over [required]: the first blank field is reported. *)
Fixpoint check_required (fields : list (string * string)) : option error :=
  match fields with
  | [] => None
  | (r, v) :: rest =>
      if is_empty (Py.strip v) then Some (PleaseFill r) else check_required rest
  end.

Definition required (f : new_vars) : list (string * string) :=
  [("name", name f); ("email", email f); ("gender", gender f);
   ("age", age f); ("phone", phone f)].

Definition new_patient (f : new_vars) (serial_n age_n : Z) : row :=
  {| rSerialNo := CInt serial_n; rPhotoPath := CStr (photo f);
     rName := CStr (Py.strip (name f)); rEmail := CStr (Py.strip (email f));
     rGender := CStr (gender f); rAge := CInt age_n;
     rAddress := CStr (Py.strip (address f));
     rPhoneNo := CStr (Py.strip (phone f));
     rOccupation := CStr (Py.strip (occupation f));
     rAadharNo := CStr (Py.strip (aadhar f));
     rSymptoms := CStr (Py.strip (symptoms f));
     rTreatment := CStr (Py.strip (treatment f));
     rStartDate := CStr (start_date f); rEndDate := CStr (end_date f);
     rSatisfied := CStr (satisfied f) |}.

Definition _new_submit (df : table) (f : new_vars) : outcome table :=
  match check_required (required f) with
  | Some e => Rejected e
  | None =>
      match Py.int (age f) with
      | None => Rejected AgeNotNumeric
      | Some age_n =>
          match Py.int (serial f) with
          | None => Rejected SerialNotNumeric
          | Some serial_n =>
              if in_values (Py.str_int serial_n) (col SerialNo df)
              then Rejected (SerialExists (Py.str_int serial_n))
              else Done (save_patients (df ++ [new_patient f serial_n age_n]))
          end
      end
  end.

(** ** Values handed back by the list widget *)

(** [tree.item(iid)['values']] gives an integer for text that [int] accepts
    and the text itself otherwise. *)
Inductive tkval : Type :=
| TInt (z : Z)
| TStr (s : string).

Definition tk_convert (s : string) : tkval :=
  match Py.int s with Some z => TInt z | None => TStr s end.

Definition tk_str (v : tkval) : string :=
  match v with TInt z => Py.str_int z | TStr s => s end.

(** ** Editing: [save_changes] of [_edit_open_window] *)

(** The entry boxes of the edit window, in the order they are written back. *)
Record entries : Type := {
  eSerialNo : string; eName : string; eEmail : string; eGender : string;
  eAge : string; eAddress : string; ePhoneNo : string; eOccupation : string;
  eAadharNo : string; eStartDate : string; eEndDate : string;
  eSatisfied : string }.

Definition entries_items (e : entries) : list (column * string) :=
  [(SerialNo, eSerialNo e); (Name, eName e); (Email, eEmail e);
   (Gender, eGender e); (Age, eAge e); (Address, eAddress e);
   (PhoneNo, ePhoneNo e); (Occupation, eOccupation e);
   (AadharNo, eAadharNo e); (StartDate, eStartDate e);
   (EndDate, eEndDate e); (Satisfied, eSatisfied e)].

(** [df[df['SerialNo'] == x].index]: positions of the rows whose serial is
    the text [x]. *)
Fixpoint index_of_serial_from (i : nat) (x : string) (df : table) : list nat :=
  match df with
  | [] => []
  | r :: rest =>
      let tl := index_of_serial_from (S i) x rest in
      match get SerialNo r with
      | CStr t => if String.eqb t x then i :: tl else tl
      | _ => tl
      end
  end.

Definition index_of_serial (x : string) (df : table) : list nat :=
  index_of_serial_from 0 x df.

(** [idx_list.any()]: some position is non-zero. *)
Definition index_any (l : list nat) : bool := existsb (fun i => negb (i =? 0)%nat) l.

(** Change the row at position [idx]. *)
Fixpoint update_at (idx : nat) (f : row -> row) (df : table) : table :=
  match df, idx with
  | [], _ => []
  | r :: rest, O => f r :: rest
  | r :: rest, S k => r :: update_at k f rest
  end.

Definition write_entries (e : entries) (sym treat : string) (r : row) : row :=
  let r1 := fold_left (fun acc cv => set (fst cv) (CStr (snd cv)) acc)
                      (entries_items e) r in
  set Treatment (CStr (Py.strip treat)) (set Symptoms (CStr (Py.strip sym)) r1).

Definition save_changes (df : table) (original_serial : tkval)
    (e : entries) (sym treat : string) : outcome table :=
  let idx_list := index_of_serial (tk_str original_serial) df in
  if negb (index_any idx_list) then Rejected NotFound
  else
    let idx := hd 0%nat idx_list in
    let new_serial := eSerialNo e in
    if negb (String.eqb new_serial (tk_str original_serial))
       && in_values new_serial (col SerialNo df)
    then Rejected (SerialExists new_serial)
    else Done (save_patients (update_at idx (write_entries e sym treat) df)).

(** ** Duplicates page: [_edit_duplicate_serial] *)

Definition tk_eq_text (s : string) (v : tkval) : bool :=
  match v with TStr t => String.eqb s t | TInt _ => false end.

(** [new_serial] is what the input dialog returned ([None] when dismissed).
    When the serial looked up is absent, [.index[0]] raises and nothing is
    changed; that case is reported as [NotFound]. *)
Definition _edit_duplicate_serial (df : table) (original_serial : tkval)
    (new_serial : option string) : outcome table :=
  match new_serial with
  | None => Rejected Cancelled
  | Some ns =>
      if is_empty ns || tk_eq_text ns original_serial then Rejected Cancelled
      else if negb (Py.isdigit ns) then Rejected SerialNotNumeric
      else if in_values ns (col SerialNo df) then Rejected (SerialExists ns)
      else
        match index_of_serial (tk_str original_serial) df with
        | [] => Rejected NotFound
        | idx :: _ => Done (save_patients (update_at idx (set SerialNo (CStr ns)) df))
        end
  end.

(** ** Deletion: [_delete_checked] *)

(** [df['SerialNo'].isin(serials)] on one cell. *)
Definition isin (serials : list string) (c : cell) : bool :=
  match c with
  | CStr s => existsb (String.eqb s) serials
  | _ => false
  end.

(** The table after deletion and the number shown in "Deleted <n> records". *)
Definition _delete_checked (df : table) (serials_to_delete : list string)
    (confirm : bool) : outcome (table * nat) :=
  match serials_to_delete with
  | [] => Rejected NothingChecked
  | _ =>
      if negb confirm then Rejected Cancelled
      else
        Done (save_patients
                (filter (fun r => negb (isin serials_to_delete (get SerialNo r))) df),
              List.length serials_to_delete)
  end.

(** ** Import: [_import_db] *)


(** [if col not in new_df.columns: new_df[col] = ''] for every schema column. *)
Definition fill_missing (has : column -> bool) (r : row) : row :=
  fold_left (fun acc c => if has c then acc else set c (CStr "") acc)
            DEFAULT_COLUMNS r.



(** ** The record views: [_get_filtered_df], [_view_refresh], [next_page] *)

Module PyText.

(** [s.lower()] on ASCII letters. *)
Definition lower_char (a : ascii) : ascii :=
  let n := nat_of_ascii a in
  if ((65 <=? n) && (n <=? 90))%nat then ascii_of_nat (n + 32) else a.

Fixpoint lower (s : string) : string :=
  match s with
  | EmptyString => EmptyString
  | String a s' => String (lower_char a) (lower s')
  end.

(** [s in t] for text. *)
Fixpoint contains (s t : string) : bool :=
  String.prefix s t ||
  match t with
  | EmptyString => false
  | String _ t' => contains s t'
  end.

End PyText.

(** The three boxes above the list. *)
Record view_vars : Type := {
  search_var : string; gender_filter_var : string; sort_by_var : string }.

Definition column_name (c : column) : string :=
  match c with
  | SerialNo => "SerialNo" | PhotoPath => "PhotoPath" | Name => "Name"
  | Email => "Email" | Gender => "Gender" | Age => "Age"
  | Address => "Address" | PhoneNo => "PhoneNo"
  | Occupation => "Occupation" | AadharNo => "AadharNo"
  | Symptoms => "Symptoms" | Treatment => "Treatment"
  | StartDate => "StartDate" | EndDate => "EndDate"
  | Satisfied => "Satisfied"
  end.

(** [sort_by in df.columns] *)
Definition column_of_name (s : string) : option column :=
  find (fun c => String.eqb (column_name c) s) DEFAULT_COLUMNS.

Definition is_nan (c : cell) : bool :=
  match c with CNaN => true | _ => false end.

(** Order of two present values: numbers by value, text by code point;
    a number and a text are never compared by the single-key sort (see
    [homogeneous]) and a number goes first in the two-key sort. *)
Definition cell_leb (a b : cell) : bool :=
  match a, b with
  | CInt x, CInt y => (x <=? y)%Z
  | CInt _, _ => true
  | CStr _, CInt _ => false
  | CStr s, CStr t => String.leb s t
  | CStr _, CNaN => true
  | CNaN, CNaN => true
  | CNaN, _ => false
  end.

(** The values of a column can be compared with each other: all numbers or
    all text.  Otherwise the comparison raises [TypeError]. *)
Definition homogeneous (cells : list cell) : bool :=
  forallb (fun c => match c with CInt _ => true | _ => false end) cells
  || forallb (fun c => match c with CStr _ => true | _ => false end) cells.

(** [df[c] = pd.to_numeric(df[c], errors='coerce')] on one row. *)
Definition coerce (c : column) (r : row) : row :=
  set c (match to_numeric (get c r) with Some z => CInt z | None => CNaN end) r.

Definition numeric_key (c : column) : bool :=
  match c with SerialNo | Age => true | _ => false end.

Definition cell_is_text (x : string) (c : cell) : bool :=
  match c with CStr t => String.eqb t x | _ => false end.

(** [max(1, (n + PAGE_SIZE - 1) // PAGE_SIZE)] *)
Definition total_pages_of (page_size n : nat) : nat :=
  Nat.max 1 ((n + page_size - 1) / page_size).

(** The page shown by a refresh: the page index kept, the rows listed and
    the page count of the label. *)
Definition show_page (page_size : nat) (df : table) (i : nat)
  : nat * table * nat :=
  let total_pages := total_pages_of page_size (List.length df) in
  let i := if (total_pages <=? i)%nat then 0%nat else i in
  let start := (i * page_size)%nat in
  (i, firstn page_size (skipn start df), total_pages).

(** The search box: rows with the lowered text somewhere in one of their
    cells; every row when the box is blank. *)
Definition search_rows (search : string) (df : table) : table :=
  let s := PyText.lower (Py.strip search) in
  if is_empty s then df
  else filter (fun r => existsb
                 (fun c => PyText.contains s (PyText.lower (cell_str (get c r))))
                 DEFAULT_COLUMNS) df.

(** The gender box: rows of that gender; every row for "All". *)
Definition gender_rows (gender_filter : string) (df : table) : table :=
  if String.eqb gender_filter "All" then df
  else filter (fun r => cell_is_text gender_filter (get Gender r)) df.

Section Views.

(** The sorting routine behind [sort_values] with its default [kind]: it
    returns the rows in ascending order of the comparison it is given. *)
Variable sorter : (row -> row -> bool) -> list row -> list row.

(** [df.sort_values(by=c, na_position='last')]: the rows with a value are
    sorted, the rows without one follow in their original order.  [None]
    when the values cannot be compared. *)
Definition sort_values (c : column) (df : table) : option table :=
  let present := filter (fun r => negb (is_nan (get c r))) df in
  let missing := filter (fun r => is_nan (get c r)) df in
  if homogeneous (col c present)
  then Some (sorter (fun a b => cell_leb (get c a) (get c b)) present ++ missing)
  else None.

Definition _get_filtered_df (df : table) (v : view_vars) : table :=
  let df := gender_rows (gender_filter_var v) (search_rows (search_var v) df) in
  match column_of_name (sort_by_var v) with
  | None => df
  | Some c =>
      let df := if numeric_key c then map (coerce c) df else df in
      match sort_values c df with
      | Some sorted => sorted
      | None => df
      end
  end.

(** [_view_refresh]: page index afterwards, rows listed, page count. *)
Definition _view_refresh (df : table) (v : view_vars) (i : nat)
  : nat * table * nat :=
  show_page PAGE_SIZE (_get_filtered_df df v) i.

(** [next_page]: the page index afterwards. *)
Definition next_page (df : table) (v : view_vars) (i : nat) : nat :=
  let total_pages := total_pages_of PAGE_SIZE (List.length (_get_filtered_df df v)) in
  if (i <? total_pages - 1)%nat then fst (fst (_view_refresh df v (i + 1))) else i.

(** [prev_page] *)
Definition prev_page (df : table) (v : view_vars) (i : nat) : nat :=
  if (0 <? i)%nat then fst (fst (_view_refresh df v (i - 1))) else i.

End Views.

(** ** Sorting routines *)

Section Insertion.
Context {A : Type} (le : A -> A -> bool).

Fixpoint insert (a : A) (l : list A) : list A :=
  match l with
  | [] => [a]
  | b :: l' => if le a b then a :: b :: l' else b :: insert a l'
  end.

(** Insertion sort; rows that compare equal keep their order. *)
Fixpoint stable_sort (l : list A) : list A :=
  match l with
  | [] => []
  | a :: l' => insert a (stable_sort l')
  end.


End Insertion.

(** What [sort_values] relies on: for a total, transitive comparison the
    routine returns the same rows in ascending order.  Nothing is promised
    about the order of rows that compare equal. *)
Definition sorts (sorter : (row -> row -> bool) -> list row -> list row) : Prop :=
  forall (le : row -> row -> bool) (l : list row),
    (forall a b, le a b = true \/ le b a = true) ->
    (forall a b c, le a b = true -> le b c = true -> le a c = true) ->
    Permutation l (sorter le l) /\
    StronglySorted (fun a b => le a b = true) (sorter le l).

(** ** Duplicates page: [show_duplicate_page] *)

Definition dup_cols : list column := [Name; Email; PhoneNo; AadharNo].

(** Every column of [dup_cols] is missing in the row. *)
Definition all_missing (r : row) : bool :=
  forallb (fun c => is_nan (get c r)) dup_cols.

(** [dropna(subset=dup_cols, how='all')] *)
Definition df_for_check (df : table) : table :=
  filter (fun r => negb (all_missing r)) df.

(** Two rows agree on every column of [dup_cols] (missing equals missing). *)
Definition same_key (a b : row) : bool :=
  forallb (fun c => cell_eqb (get c a) (get c b)) dup_cols.

(** [duplicated(subset=dup_cols, keep=False)] on one row of [df]. *)
Definition duplicated (df : table) (r : row) : bool :=
  (2 <=? List.length (filter (same_key r) df))%nat.

(** Ascending by [Name], then by [SerialNo]. *)
Definition name_serial_leb (a b : row) : bool :=
  if cell_eqb (get Name a) (get Name b)
  then cell_leb (get SerialNo a) (get SerialNo b)
  else cell_leb (get Name a) (get Name b).

Definition df_dups (df : table) : table :=
  let chk := df_for_check df in
  stable_sort name_serial_leb (filter (duplicated chk) chk).

(** ** Statistics: [_show_stats] and [_share_show_stats] *)

(** What stands after "Average Age:" *)
Inductive age_label : Type :=
| OneDecimal (mean : Q)      (* the mean printed with one decimal *)
| Label (text : string).

Record stats : Type := {
  total : nat; males : nat; females : nat; others : nat;
  average_age : age_label }.

(** [pd.to_numeric(df['Age'], errors='coerce')] without the missing values. *)
Definition numeric_ages (df : table) : list Z :=
  flat_map (fun r => match to_numeric (get Age r) with
                     | Some z => [z] | None => [] end) df.

(** [df['Age'].mean()]: [None] is NaN. *)
Definition mean (l : list Z) : option Q :=
  match l with
  | [] => None
  | _ => Some (Qmake (fold_right Z.add 0 l) (Pos.of_nat (List.length l)))
  end.

Definition count_gender (g : string) (df : table) : nat :=
  List.length (filter (fun r => cell_is_text g (get Gender r)) df).

Definition summarize (na : string) (df : table) : stats :=
  let total := List.length df in
  let males := count_gender "Male" df in
  let females := count_gender "Female" df in
  {| total := total; males := males; females := females;
     others := (total - males - females)%nat;
     average_age := match mean (numeric_ages df) with
                    | Some q => OneDecimal q
                    | None => Label na
                    end |}.

(** Overall statistics; [None] when there is no patient. *)
Definition _show_stats (df : table) : option stats :=
  match df with
  | [] => None
  | _ => Some (summarize "N/A" df)
  end.

(** [_share_get_selected_records] *)
Definition _share_get_selected_records (df : table) (serials : list string) : table :=
  match serials with
  | [] => []
  | _ => filter (fun r => isin serials (get SerialNo r)) df
  end.

(** Statistics of the checked records; the mean is formatted as it is, so
    a missing mean is printed as [nan]. *)
Definition _share_show_stats (df : table) (serials : list string) : option stats :=
  match _share_get_selected_records df serials with
  | [] => None
  | sel => Some (summarize "nan" sel)
  end.

(** ** The edit, delete and share pages *)

(** [_delete_get_filtered_df]: the search box alone, over every cell. *)
Definition _delete_get_filtered_df (df : table) (search : string) : table :=
  search_rows search df.

(** [_share_get_filtered_df]: the search looks at four columns only. *)
Definition _share_get_filtered_df (df : table) (search : string) : table :=
  let s := PyText.lower (Py.strip search) in
  if is_empty s then df
  else filter (fun r => existsb
                 (fun c => PyText.contains s (PyText.lower (cell_str (get c r))))
                 [SerialNo; Name; Email; PhoneNo]) df.

(** [_edit_page_change], [_delete_page_change], [_share_page_change] on the
    filtered rows [df]: the page index after "Prev" ([delta = -1]) or "Next"
    ([delta = 1]). *)
Definition page_change (df : table) (delta : Z) (i : nat) : nat :=
  let total := total_pages_of PAGE_SIZE (List.length df) in
  let new := Z.of_nat i + delta in
  if (0 <=? new)%Z && (new <? Z.of_nat total)%Z
  then fst (fst (show_page PAGE_SIZE df (Z.to_nat new)))
  else i.

Definition _delete_page_change (df : table) (search : string) (delta : Z) (i : nat)
  : nat :=
  page_change (_delete_get_filtered_df df search) delta i.

Definition _share_page_change (df : table) (search : string) (delta : Z) (i : nat)
  : nat :=
  page_change (_share_get_filtered_df df search) delta i.

Section EditPage.
Variable sorter : (row -> row -> bool) -> list row -> list row.

(** [_edit_get_filtered_df] repeats [_get_filtered_df]. *)
Definition _edit_get_filtered_df (df : table) (v : view_vars) : table :=
  let df := gender_rows (gender_filter_var v) (search_rows (search_var v) df) in
  match column_of_name (sort_by_var v) with
  | None => df
  | Some c =>
      let df := if numeric_key c then map (coerce c) df else df in
      match sort_values sorter c df with
      | Some sorted => sorted
      | None => df
      end
  end.

Definition _edit_page_change (df : table) (v : view_vars) (delta : Z) (i : nat)
  : nat :=
  page_change (_edit_get_filtered_df df v) delta i.

End EditPage.

(** ** Check boxes *)

(** [self.checkbox_state]: the rows of the list by their item id, in the
    order they were inserted, each with its check mark. *)
Definition checkbox_state : Type := list (string * bool).

(** The state a refresh builds: every listed row unchecked. *)
Definition unchecked (iids : list string) : checkbox_state :=
  map (fun iid => (iid, false)) iids.

(** [state.get(row, False)] *)
Fixpoint state_get (row_id : string) (st : checkbox_state) : bool :=
  match st with
  | [] => false
  | (iid, b) :: rest => if String.eqb iid row_id then b else state_get row_id rest
  end.

(** [state[row] = b] *)
Fixpoint state_set (row_id : string) (b : bool) (st : checkbox_state)
  : checkbox_state :=
  match st with
  | [] => [(row_id, b)]
  | (iid, c) :: rest =>
      if String.eqb iid row_id then (iid, b) :: rest
      else (iid, c) :: state_set row_id b rest
  end.

(** [on_click] in the first column of row [row_id]. *)
Definition on_click (row_id : string) (st : checkbox_state) : checkbox_state :=
  state_set row_id (negb (state_get row_id st)) st.

(** [_delete_toggle_all] and [_share_toggle_all]. *)
Definition toggle_all (st : checkbox_state) : checkbox_state :=
  let all_selected :=
    match st with [] => false | _ => forallb snd st end in
  let new_state := negb all_selected in
  fold_left (fun acc iid => state_set iid new_state acc) (map fst st) st.

(** [str(tree.item(iid)['values'][1])] for a listed row: the serial cell as
    the list shows it, converted by the widget and turned into text. *)
Definition checked_serial (r : row) : string :=
  tk_str (tk_convert (cell_str (get SerialNo r))).

(** The serials of the checked rows; [tree] gives the row shown under each
    item id. *)
Definition checked_serials (tree : list (string * row)) (st : checkbox_state)
  : list string :=
  flat_map (fun ib : string * bool =>
              if snd ib
              then match find (fun ir : string * row => String.eqb (fst ir) (fst ib))
                              tree with
                   | Some ir => [checked_serial (snd ir)]
                   | None => []
                   end
              else []) st.

(** [delete_selected_duplicates] of the duplicates page. *)
Definition delete_selected_duplicates (df : table) (serials_to_delete : list string)
    (confirm : bool) : outcome table :=
  match serials_to_delete with
  | [] => Rejected NothingChecked
  | _ =>
      if negb confirm then Rejected Cancelled
      else Done (save_patients
                   (filter (fun r => negb (isin serials_to_delete (get SerialNo r))) df))
  end.

(** ** Most common value: [get_most_common] *)

(** The distinct texts of a list, in the order they first occur. *)
Fixpoint first_seen (l : list string) : list string :=
  match l with
  | [] => []
  | x :: l' => x :: filter (fun y => negb (String.eqb y x)) (first_seen l')
  end.

Definition occurrences (t : string) (l : list string) : nat :=
  List.length (filter (String.eqb t) l).

Section MostCommon.

(** The routine [value_counts] sorts its table with. *)
Variable count_sorter :
  (string * nat -> string * nat -> bool) -> list (string * nat) -> list (string * nat).

(** [series.astype(str).value_counts()]: each distinct text with the number
    of times it occurs, most frequent first. *)
Definition value_counts (texts : list string) : list (string * nat) :=
  count_sorter (fun a b => (snd b <=? snd a)%nat)
               (map (fun t => (t, occurrences t texts)) (first_seen texts)).

Definition get_most_common (df : table) (c : column) : string :=
  match df with
  | [] => "N/A"
  | _ =>
      match value_counts (map cell_str (col c df)) with
      | [] => "N/A"
      | (t, _) :: _ => t
      end
  end.

End MostCommon.

(** What [value_counts] relies on: the same entries, in the order asked
    for. *)
Definition sorts_counts
  (count_sorter : (string * nat -> string * nat -> bool) ->
                  list (string * nat) -> list (string * nat)) : Prop :=
  forall le l,
    (forall a b, le a b = true \/ le b a = true) ->
    (forall a b c, le a b = true -> le b c = true -> le a c = true) ->
    Permutation l (count_sorter le l) /\
    StronglySorted (fun a b => le a b = true) (count_sorter le l).

(** Two rows carry the same values in the columns the duplicates page
    compares. *)
Definition keys_agree (a b : row) : Prop :=
  forall c, In c dup_cols -> get c a = get c b.

(** ** Uniqueness of serial numbers *)

(** The serial numbers of the table as text. *)
Definition serial_texts (df : table) : list string :=
  map cell_str (col SerialNo df).

(** A serial cell as [load_patients] gives it: missing, or text that is not
    read back as missing. *)
Definition loaded_serial (c : cell) : bool :=
  match c with
  | CStr s => negb (is_na_text s)
  | CInt _ => false
  | CNaN => true
  end.

(** The table is as loaded and its serial numbers are pairwise distinct as
    text. *)
Definition serials_unique (df : table) : Prop :=
  forallb loaded_serial (col SerialNo df) = true /\ NoDup (serial_texts df).



(** ** Sample data *)

Definition blank_row : row :=
  mkRow CNaN CNaN CNaN CNaN CNaN CNaN CNaN CNaN CNaN CNaN CNaN CNaN CNaN CNaN CNaN.

(** A row known by its serial number only. *)
Definition srow (s : string) : row := set SerialNo (CStr s) blank_row.

(** A row with a serial number and an age. *)
Definition arow (s a : string) : row := set Age (CStr a) (srow s).

Definition five_rows : table := [srow "1"; srow "2"; srow "3"; srow "4"; srow "5"].

Definition two_same_age : table := [arow "1" "30"; arow "2" "30"].

Definition by_age : view_vars :=
  {| search_var := ""; gender_filter_var := "All"; sort_by_var := "Age" |}.

(** A registration form with the required fields filled in. *)
Definition form (serial_text : string) : new_vars :=
  {| serial := serial_text; name := "A"; email := "a@x"; gender := "Male";
     age := "30"; address := ""; phone := "1"; occupation := ""; aadhar := "";
     symptoms := ""; treatment := ""; start_date := "2024-01-01";
     end_date := ""; satisfied := "Yes"; photo := "" |}.


(** A row as the file gives it back, known by its serial number and the
    four columns the duplicates page compares. *)
Definition krow (s n e p a : string) : row :=
  reload_row (set AadharNo (CStr a) (set PhoneNo (CStr p)
    (set Email (CStr e) (set Name (CStr n) (srow s))))).

Definition three_patients : table :=
  [krow "1" "A" "a@x" "1" ""; krow "2" "B" "b@y" "2" ""; krow "3" "A" "a@x" "1" ""].

Definition three_serials : table := [srow "1"; srow "2"; srow "3"].

(** The edit window with the serial box emptied. *)
Definition blank_serial_entries : entries :=
  {| eSerialNo := ""; eName := "A"; eEmail := "a@x"; eGender := "Male";
     eAge := "30"; eAddress := ""; ePhoneNo := "1"; eOccupation := "";
     eAadharNo := ""; eStartDate := "2024-01-01"; eEndDate := "";
     eSatisfied := "Yes" |}.

(** A registration form for serial "7" with the name left blank. *)
Definition nameless_form : new_vars :=
  {| serial := "7"; name := "  "; email := "a@x"; gender := "Male";
     age := "30"; address := ""; phone := "1"; occupation := ""; aadhar := "";
     symptoms := ""; treatment := ""; start_date := "2024-01-01";
     end_date := ""; satisfied := "Yes"; photo := "" |}.

(** * Properties *)

(** ** Identifier allocation *)






(** ** Paging *)

Lemma ceil_div_bounds : forall ps n : nat, (0 < ps)%nat ->
  (n <= (n + ps - 1) / ps * ps /\ (n + ps - 1) / ps * ps < n + ps)%nat.
Proof.
  intros ps n Hps.
  pose proof (Nat.div_mod_eq (n + ps - 1) ps) as E.
  pose proof (Nat.mod_upper_bound (n + ps - 1) ps ltac:(lia)) as B.
  nia.
Qed.

Lemma total_pages_positive : forall ps n, (1 <= total_pages_of ps n)%nat.
Proof. intros; unfold total_pages_of; lia. Qed.

(** C4, as the code has it.  The page count is the ceiling of the row count
    over the page size, and at least 1; a page index at or beyond the page
    count is put back to 0, the first page, and any other index is kept; the
    rows listed are the slice of that page.  Five rows with page size 2 make
    three pages of 2, 2 and 1 rows. *)
Theorem show_page_spec : forall (page_size : nat) (df : table) (i : nat),
  (0 < page_size)%nat ->
  let '(j, rows, total_pages) := show_page page_size df i in
  let n := List.length df in
  ((n = 0 /\ total_pages = 1)%nat \/
   ((0 < n)%nat /\ ((total_pages - 1) * page_size < n <= total_pages * page_size)%nat)) /\
  j = (if (i <? total_pages)%nat then i else 0%nat) /\
  (j < total_pages)%nat /\
  rows = firstn page_size (skipn (j * page_size) df) /\
  List.length rows = Nat.min page_size (n - j * page_size) /\
  map (fun k => List.length (snd (fst (show_page 2 five_rows k)))) [0; 1; 2]%nat
    = [2; 2; 1]%nat /\
  snd (show_page 2 five_rows 0) = 3%nat.
Proof.
  intros ps df i Hps. unfold show_page.
  set (n := List.length df). set (tp := total_pages_of ps n).
  assert (Htp : (1 <= tp)%nat) by apply total_pages_positive.
  cbv zeta. repeat split.
  - unfold tp, total_pages_of. destruct (ceil_div_bounds ps n Hps) as [A B].
    destruct (Nat.eq_dec n 0) as [E|E].
    + left. split; [assumption|]. rewrite E in *. simpl.
      rewrite Nat.div_small by lia. reflexivity.
    + right. split; [lia|].
      assert (1 <= (n + ps - 1) / ps)%nat.
      { apply Nat.div_le_lower_bound; lia. }
      rewrite Nat.max_r by lia. nia.
  - destruct (Nat.leb_spec tp i), (Nat.ltb_spec i tp); lia || reflexivity.
  - destruct (Nat.leb_spec tp i); lia.
  - rewrite length_firstn, length_skipn. reflexivity.
Qed.

Lemma show_page_witness :
  (0 < 2)%nat /\ fst (fst (show_page 2 five_rows 1)) = 1%nat.
Proof.
  split; [lia|].
  pose proof (show_page_spec 2 five_rows 1 ltac:(lia)) as H.
  vm_compute in H. destruct H as (_ & Hj & _). vm_compute. exact Hj.
Defined.

(** C4, as the spec has it, fails: asking for page index 5 of three pages
    shows the first page, not the last one. *)
Lemma show_page_resets_to_first :
  show_page 2 five_rows 5 = (0%nat, [srow "1"; srow "2"], 3%nat) /\
  fst (fst (show_page 2 five_rows 5)) <> Nat.min 5 (3 - 1).
Proof. split; [reflexivity | vm_compute; discriminate]. Qed.

(** ** Rows and cells *)

Lemma get_set_same : forall c v r, get c (set c v r) = v.
Proof. intros [] v []; reflexivity. Qed.

Lemma get_set_other : forall c c' v r, c' <> c -> get c' (set c v r) = get c' r.
Proof. intros [] [] v [] H; try reflexivity; now elim H. Qed.

Lemma filter_split_perm : forall (A : Type) (p : A -> bool) (l : list A),
  Permutation l (filter (fun x => negb (p x)) l ++ filter p l).
Proof.
  intros A p l. induction l as [|a l IH]; simpl; [constructor|].
  destruct (p a); simpl.
  - apply Permutation_cons_app. exact IH.
  - constructor. exact IH.
Qed.

(** ** Statistics *)

(** On the overall statistics the average age is the mean of the ages that
    read as numbers and "N/A" when none does. *)
Lemma show_stats_average : forall df : table,
  df = [] \/
  exists st, _show_stats df = Some st /\ total st = List.length df /\
    ((numeric_ages df = [] /\ average_age st = Label "N/A") \/
     (numeric_ages df <> [] /\
      average_age st = OneDecimal (Qmake (fold_right Z.add 0 (numeric_ages df))
                                         (Pos.of_nat (List.length (numeric_ages df)))))).
Proof.
  intros [|r df]; [now left|right].
  exists (summarize "N/A" (r :: df)). split; [reflexivity|]. split; [reflexivity|].
  unfold summarize. cbn [average_age]. unfold mean.
  destruct (numeric_ages (r :: df)); [left; auto | right; split; [discriminate|reflexivity]].
Qed.

Example show_stats_30_bad :
  option_map (fun st => (total st, average_age st))
             (_show_stats [arow "1" "30"; arow "2" "bad"])
  = Some (2%nat, OneDecimal (30 # 1)).
Proof. reflexivity. Qed.

(** C9 fails on the statistics of the checked records: when no age reads as
    a number the label is the text "nan", where the overall statistics
    print "N/A" for the same rows. *)
Theorem share_stats_average_nan :
  option_map average_age (_share_show_stats [arow "1" "bad"] ["1"]) = Some (Label "nan") /\
  option_map average_age (_show_stats [arow "1" "bad"]) = Some (Label "N/A").
Proof. split; reflexivity. Qed.

(** ** Order on cells *)

Lemma string_compare_trans : forall s1 s2 s3,
  String.compare s1 s2 <> Gt -> String.compare s2 s3 <> Gt ->
  String.compare s1 s3 <> Gt.
Proof.
  induction s1 as [|a1 s1 IH]; intros [|a2 s2] [|a3 s3]; simpl;
    try congruence.
  unfold Ascii.compare.
  destruct (N.compare_spec (N_of_ascii a1) (N_of_ascii a2)) as [E12|L12|G12];
    destruct (N.compare_spec (N_of_ascii a2) (N_of_ascii a3)) as [E23|L23|G23];
    destruct (N.compare_spec (N_of_ascii a1) (N_of_ascii a3)) as [E13|L13|G13];
    try congruence; try lia.
  apply IH.
Qed.

Lemma string_leb_trans : forall s1 s2 s3,
  String.leb s1 s2 = true -> String.leb s2 s3 = true -> String.leb s1 s3 = true.
Proof.
  unfold String.leb. intros s1 s2 s3 H12 H23.
  pose proof (string_compare_trans s1 s2 s3) as T.
  destruct (String.compare s1 s2), (String.compare s2 s3),
    (String.compare s1 s3); try reflexivity; try discriminate;
    exfalso; apply T; congruence.
Qed.

Lemma cell_leb_total : forall a b, cell_leb a b = true \/ cell_leb b a = true.
Proof.
  intros [s|x|] [t|y|]; simpl; auto.
  - apply String.leb_total.
  - destruct (Z.leb_spec x y); [auto|right; apply Z.leb_le; lia].
Qed.

Lemma cell_leb_trans : forall a b c,
  cell_leb a b = true -> cell_leb b c = true -> cell_leb a c = true.
Proof.
  intros [s|x|] [t|y|] [u|z|]; simpl; try congruence.
  - apply string_leb_trans.
  - rewrite !Z.leb_le. lia.
Qed.

Lemma cell_eqb_eq : forall a b, cell_eqb a b = true <-> a = b.
Proof.
  intros [s|x|] [t|y|]; simpl; split; try congruence; try reflexivity.
  - intros H. apply String.eqb_eq in H. congruence.
  - intros [= ->]. apply String.eqb_refl.
  - intros H. apply Z.eqb_eq in H. congruence.
  - intros [= ->]. apply Z.eqb_refl.
Qed.


(** ** Insertion sort *)

Section InsertionFacts.
Context {A : Type} (le : A -> A -> bool).
Hypothesis le_total : forall a b, le a b = true \/ le b a = true.
Hypothesis le_trans : forall a b c, le a b = true -> le b c = true -> le a c = true.

Lemma insert_perm : forall a l, Permutation (a :: l) (insert le a l).
Proof.
  intros a l. induction l as [|b l IH]; simpl; [reflexivity|].
  destruct (le a b); [reflexivity|].
  rewrite perm_swap. constructor. exact IH.
Qed.

Lemma stable_sort_perm : forall l, Permutation l (stable_sort le l).
Proof.
  induction l as [|a l IH]; simpl; [constructor|].
  rewrite <- insert_perm. constructor. exact IH.
Qed.

Lemma insert_sorted : forall a l,
  StronglySorted (fun x y => le x y = true) l ->
  StronglySorted (fun x y => le x y = true) (insert le a l).
Proof.
  intros a l H. induction H as [|b l Hs IH Hb]; simpl.
  - repeat constructor.
  - destruct (le a b) eqn:E.
    + constructor; [constructor; assumption|].
      constructor; [assumption|].
      eapply Forall_impl; [|exact Hb]. intros c Hc. eauto.
    + constructor; [assumption|].
      assert (Hba : le b a = true) by (destruct (le_total a b); congruence).
      rewrite <- (insert_perm a l). constructor; assumption.
  Qed.

Lemma stable_sort_sorted : forall l,
  StronglySorted (fun x y => le x y = true) (stable_sort le l).
Proof.
  induction l as [|a l IH]; simpl; [constructor|]. now apply insert_sorted.
Qed.

End InsertionFacts.

Lemma stable_sort_sorts : sorts stable_sort.
Proof.
  intros le l Ht Htr. split;
    [apply stable_sort_perm | now apply stable_sort_sorted].
Qed.


(** ** Sorted views *)




Section SortedViews.
Variable sorter : (row -> row -> bool) -> list row -> list row.
Hypothesis sorter_sorts : sorts sorter.

Lemma sort_values_sorted : forall c rows sorted,
  sort_values sorter c rows = Some sorted ->
  exists present,
    sorted = present ++ filter (fun r => is_nan (get c r)) rows /\
    Permutation (filter (fun r => negb (is_nan (get c r))) rows) present /\
    StronglySorted (fun a b => cell_leb (get c a) (get c b) = true) present.
Proof.
  intros c rows sorted. unfold sort_values.
  destruct (homogeneous _); [|discriminate]. intros [= <-].
  eexists. split; [reflexivity|].
  apply sorter_sorts.
  - intros a b. apply cell_leb_total.
  - intros a b d. apply cell_leb_trans.
Qed.

Lemma sort_values_perm : forall c rows sorted,
  sort_values sorter c rows = Some sorted -> Permutation rows sorted.
Proof.
  intros c rows sorted H. apply sort_values_sorted in H.
  destruct H as [present [-> [Hp _]]].
  rewrite <- Hp. apply filter_split_perm.
Qed.


End SortedViews.







(** ** Integers and their decimal text *)

Module PyFacts.

Lemma rstrip_no_space : forall s, Py.all_chars Py.not_space s = true -> Py.rstrip s = s.
Proof.
  induction s as [|a s IH]; simpl; [reflexivity|].
  intros H. apply andb_true_iff in H. destruct H as [Ha Hs].
  rewrite (IH Hs). unfold Py.not_space in Ha. apply negb_true_iff in Ha.
  rewrite Ha. now destruct s.
Qed.

Lemma strip_no_space : forall s, Py.all_chars Py.not_space s = true -> Py.strip s = s.
Proof.
  intros s H. unfold Py.strip.
  assert (E : Py.lstrip s = s).
  { destruct s as [|a s]; [reflexivity|]. simpl in *.
    apply andb_true_iff in H. destruct H as [Ha _].
    unfold Py.not_space in Ha. apply negb_true_iff in Ha. now rewrite Ha. }
  rewrite E. now apply rstrip_no_space.
Qed.

Lemma uint_no_space : forall d,
  Py.all_chars Py.not_space (NilEmpty.string_of_uint d) = true.
Proof. induction d; simpl; auto. Qed.

Lemma digits_of_uint : forall d, d <> Decimal.Nil ->
  Py.digits (NilEmpty.string_of_uint d) = Some (Z.of_int (Decimal.Pos d)).
Proof.
  intros d Hd. unfold Py.digits.
  replace (NilEmpty.string_of_uint d) with (NilZero.string_of_uint d)
    by (destruct d; [now elim Hd | reflexivity..]).
  now rewrite NilZero.usu.
Qed.

Lemma int_of_uint : forall d, d <> Decimal.Nil ->
  Py.int (NilEmpty.string_of_uint d) = Some (Z.of_int (Decimal.Pos d)).
Proof.
  intros d Hd. unfold Py.int.
  rewrite strip_no_space by apply uint_no_space.
  rewrite <- (digits_of_uint d Hd).
  destruct d; [now elim Hd | reflexivity..].
Qed.

(** [int(str(z)) == z] *)
Lemma int_str_int : forall z, Py.int (Py.str_int z) = Some z.
Proof.
  intros [|p|p]; [reflexivity| |].
  - unfold Py.str_int. simpl Z.to_int. simpl NilZero.string_of_int.
    pose proof (DecimalPos.Unsigned.to_uint_nonnil p) as Hn.
    replace (NilZero.string_of_uint (Pos.to_uint p))
      with (NilEmpty.string_of_uint (Pos.to_uint p))
      by (destruct (Pos.to_uint p); [now elim Hn | reflexivity..]).
    rewrite int_of_uint by assumption. f_equal.
    exact (DecimalZ.of_to (Zpos p)).
  - unfold Py.str_int. simpl Z.to_int. simpl NilZero.string_of_int.
    pose proof (DecimalPos.Unsigned.to_uint_nonnil p) as Hn.
    replace (NilZero.string_of_uint (Pos.to_uint p))
      with (NilEmpty.string_of_uint (Pos.to_uint p))
      by (destruct (Pos.to_uint p); [now elim Hn | reflexivity..]).
    unfold Py.int. rewrite strip_no_space
      by (simpl; apply uint_no_space).
    rewrite digits_of_uint by assumption. simpl. f_equal.
    change (Z.opp (Z.of_int (Z.to_int (Zpos p))) = Zneg p).
    now rewrite DecimalZ.of_to.
Qed.


End PyFacts.

(** ** Registration *)

(** C2, as the code has it.  When the required fields are filled, the age
    reads as a number and the serial entry reads as the integer [n], a table
    that already has the decimal text of [n] as a serial number makes the
    registration fail with the "already exists" message, and the table stays
    as it was.  Any rejected registration leaves the table as it was. *)
Theorem new_submit_conflict : forall (df : table) (f : new_vars) (age_n serial_n : Z),
  check_required (required f) = None ->
  Py.int (age f) = Some age_n ->
  Py.int (serial f) = Some serial_n ->
  in_values (Py.str_int serial_n) (col SerialNo df) = true ->
  _new_submit df f = Rejected (SerialExists (Py.str_int serial_n)) /\
  table_after df (_new_submit df f) (fun t => t) = df /\
  (forall g e, _new_submit df g = Rejected e ->
               table_after df (_new_submit df g) (fun t => t) = df).
Proof.
  intros df f age_n serial_n Hreq Hage Hser Hin.
  assert (E : _new_submit df f = Rejected (SerialExists (Py.str_int serial_n))).
  { unfold _new_submit. now rewrite Hreq, Hage, Hser, Hin. }
  split; [exact E|]. split; [now rewrite E|].
  intros g e Hg. now rewrite Hg.
Qed.

Lemma new_submit_conflict_witness :
  check_required (required (form " 7 ")) = None /\
  Py.int (age (form " 7 ")) = Some 30 /\
  Py.int (serial (form " 7 ")) = Some 7 /\
  in_values (Py.str_int 7) (col SerialNo [srow "7"]) = true /\
  _new_submit [srow "7"] (form " 7 ") = Rejected (SerialExists "7").
Proof.
  repeat (split; [reflexivity|]).
  exact (proj1 (new_submit_conflict [srow "7"] (form " 7 ") 30 7
                  eq_refl eq_refl eq_refl eq_refl)).
Defined.

(** C2, as the spec has it, fails.  The serial entry "007" is in the table
    as text, yet the registration goes through and a row with serial "7" is
    added.  And a request that repeats the serial "7" but leaves the name
    blank is turned down for the blank name, not for the conflict. *)
Lemma new_submit_text_duplicate_accepted :
  (in_values (serial (form "007")) (col SerialNo [srow "007"]) = true /\
   exists r, _new_submit [srow "007"] (form "007") = Done [srow "007"; r] /\
             get SerialNo r = CStr "7") /\
  (in_values "7" (col SerialNo [srow "7"]) = true /\
   _new_submit [srow "7"] nameless_form = Rejected (PleaseFill "name")).
Proof.
  split; split; try reflexivity. eexists. split; reflexivity.
Qed.

(** ** Deletion *)

Lemma isin_cons : forall s l c,
  isin (s :: l) c = cell_is_text s c || isin l c.
Proof. intros s l [t|z|]; reflexivity. Qed.

Lemma isin_iff : forall l c,
  isin l c = true <-> exists s, In s l /\ c = CStr s.
Proof.
  intros l [t|z|]; simpl.
  - rewrite existsb_exists. split.
    + intros [s [Hs E]]. apply String.eqb_eq in E. subst. eauto.
    + intros [s [Hs [= ->]]]. exists s. split; [assumption|apply String.eqb_refl].
  - split; [discriminate|]. intros [s [_ H]]. discriminate.
  - split; [discriminate|]. intros [s [_ H]]. discriminate.
Qed.

Lemma filter_length_split : forall (A : Type) (p : A -> bool) (l : list A),
  (List.length (filter (fun x => negb (p x)) l) + List.length (filter p l)
   = List.length l)%nat.
Proof.
  intros A p l. induction l as [|a l IH]; simpl; [reflexivity|].
  destruct (p a); simpl; lia.
Qed.

Lemma isin_count_cons : forall s l (df : table), ~ In s l ->
  List.length (filter (fun r => isin (s :: l) (get SerialNo r)) df)
  = (List.length (filter (fun r => cell_is_text s (get SerialNo r)) df)
     + List.length (filter (fun r => isin l (get SerialNo r)) df))%nat.
Proof.
  intros s l df Hs. induction df as [|r df IH]; [reflexivity|].
  cbn [filter]. rewrite isin_cons.
  destruct (cell_is_text s (get SerialNo r)) eqn:E1;
    destruct (isin l (get SerialNo r)) eqn:E2; cbn [orb List.length];
    try lia.
  exfalso. apply isin_iff in E2. destruct E2 as [t [Ht Hc]].
  rewrite Hc in E1. simpl in E1. apply String.eqb_eq in E1. congruence.
Qed.

Lemma isin_count_distinct : forall l (df : table),
  NoDup l ->
  Forall (fun s => List.length
                     (filter (fun r => cell_is_text s (get SerialNo r)) df) = 1%nat) l ->
  List.length (filter (fun r => isin l (get SerialNo r)) df) = List.length l.
Proof.
  induction l as [|s l IH]; intros df Hnd Hall.
  - clear Hall. induction df as [|r df IHd]; [reflexivity|].
    cbn [filter]. now destruct (get SerialNo r).
  - inversion Hnd as [|? ? Hs Hl]; subst.
    inversion Hall as [|? ? H1 Hrest]; subst.
    rewrite isin_count_cons by assumption.
    rewrite IH by assumption. rewrite H1. reflexivity.
Qed.

(** C3, as the code has it.  With at least one serial checked and the
    question confirmed, deletion never fails; it drops exactly the rows whose
    serial number is one of the checked texts and keeps the others in order;
    the number it reports is the number of checked serials.  That number is
    the number of rows dropped when the checked serials are pairwise distinct
    and each is the serial of exactly one row. *)
Theorem delete_checked_spec : forall (df : table) (serials : list string),
  serials <> [] ->
  let kept := filter (fun r => negb (isin serials (get SerialNo r))) df in
  let removed := filter (fun r => isin serials (get SerialNo r)) df in
  _delete_checked df serials true = Done (save_patients kept, List.length serials) /\
  (forall r, In r removed <->
             In r df /\ exists s, In s serials /\ get SerialNo r = CStr s) /\
  (List.length (save_patients kept) + List.length removed = List.length df)%nat /\
  (NoDup serials ->
   Forall (fun s => List.length
                      (filter (fun r => cell_is_text s (get SerialNo r)) df) = 1%nat)
          serials ->
   List.length removed = List.length serials).
Proof.
  intros df serials Hne kept removed. repeat split.
  - unfold _delete_checked. destruct serials; [now elim Hne|reflexivity].
  - apply filter_In in H. tauto.
  - apply filter_In in H. destruct H as [_ H]. now apply isin_iff.
  - intros [Hr Hs]. apply filter_In. split; [assumption|]. now apply isin_iff.
  - unfold save_patients. rewrite length_map. apply filter_length_split.
  - intros Hnd Hall. now apply isin_count_distinct.
Qed.

Lemma delete_checked_witness :
  ["2"] <> [] /\
  _delete_checked [srow "1"; srow "2"] ["2"] true = Done ([srow "1"], 1%nat).
Proof.
  split; [discriminate|].
  exact (proj1 (delete_checked_spec [srow "1"; srow "2"] ["2"]
                  ltac:(discriminate))).
Defined.

(** C3, as the spec has it, fails on the count: with one serial present and
    one absent, one row is dropped and the number reported is 2. *)
Lemma delete_reports_checked_count :
  _delete_checked [srow "1"; srow "2"] ["1"; "9"] true = Done ([srow "2"], 2%nat) /\
  (List.length [srow "1"; srow "2"] - List.length [srow "2"] = 1)%nat /\
  (2 <> 1)%nat.
Proof. split; [reflexivity|]. split; [reflexivity | lia]. Qed.

(** ** Persistence and import *)

Lemma get_reload_row : forall c r, get c (reload_row r) = reload_cell c (get c r).
Proof. intros [] r; reflexivity. Qed.


Lemma get_fill_columns : forall (has : column -> bool) cols c r,
  get c (fold_left (fun acc c0 => if has c0 then acc else set c0 (CStr "") acc) cols r)
  = if existsb (column_eqb c) cols && negb (has c) then CStr "" else get c r.
Proof.
  intros has cols c. induction cols as [|c0 cols IH]; intros r; [reflexivity|].
  cbn [fold_left existsb]. rewrite IH.
  destruct (existsb (column_eqb c) cols) eqn:E; simpl.
  - rewrite orb_true_r. simpl. destruct (has c) eqn:Hc; simpl; [|reflexivity].
    destruct (has c0) eqn:Hc0; [reflexivity|].
    apply get_set_other. intros ->. congruence.
  - rewrite orb_false_r. destruct (column_eqb c c0) eqn:Ec; simpl.
    + assert (c = c0) by (destruct c, c0; simpl in Ec; congruence). subst c0.
      destruct (has c); simpl; [reflexivity|apply get_set_same].
    + destruct (has c0); [reflexivity|].
      apply get_set_other. intros ->. destruct c0; discriminate.
Qed.

Lemma get_fill_missing : forall has c r,
  get c (fill_missing has r) = if has c then get c r else CStr "".
Proof.
  intros has c r. unfold fill_missing. rewrite get_fill_columns.
  replace (existsb (column_eqb c) DEFAULT_COLUMNS) with true by now destruct c.
  now destruct (has c).
Qed.







(** ** Duplicates *)

Lemma same_key_iff : forall a b,
  same_key a b = true <-> forall c, In c dup_cols -> get c a = get c b.
Proof.
  intros a b. unfold same_key. rewrite forallb_forall.
  split; intros H c Hc; apply cell_eqb_eq; auto.
Qed.

Lemma same_key_all_missing : forall a b,
  same_key a b = true -> all_missing b = all_missing a.
Proof.
  intros a b H. rewrite same_key_iff in H. unfold all_missing, dup_cols in *.
  cbn [forallb].
  rewrite (H Name), (H Email), (H PhoneNo), (H AadharNo) by (simpl; auto).
  reflexivity.
Qed.

Lemma same_key_in_check : forall r df,
  all_missing r = false ->
  filter (same_key r) (df_for_check df) = filter (same_key r) df.
Proof.
  intros r df Hr. unfold df_for_check.
  induction df as [|x df IH]; [reflexivity|]. cbn [filter].
  destruct (same_key r x) eqn:E.
  - rewrite (same_key_all_missing r x E), Hr. cbn [negb filter].
    rewrite E. now f_equal.
  - destruct (negb (all_missing x)); [cbn [filter]; rewrite E|]; exact IH.
Qed.




(** ** Uniqueness of serial numbers *)

(** C1 fails through the edit window, which takes any text as the new
    serial number: saving an emptied serial box on the second and then on
    the third row of a table with serial numbers "1", "2", "3" leaves two
    rows without a serial number, both shown as "nan". *)
Theorem edit_blank_serial_twice :
  serials_unique three_serials /\
  exists t1 t2,
    save_changes three_serials (TInt 2) blank_serial_entries "" "" = Done t1 /\
    save_changes t1 (TInt 3) blank_serial_entries "" "" = Done t2 /\
    serial_texts t2 = ["1"; "nan"; "nan"] /\
    ~ NoDup (serial_texts t2).
Proof.
  split.
  - split; [reflexivity|]. unfold serial_texts, three_serials. simpl.
    repeat constructor; simpl; intuition discriminate.
  - eexists. eexists. split; [reflexivity|]. split; [reflexivity|].
    split; [reflexivity|].
    intros H. inversion H as [|? ? _ H1]; subst.
    inversion H1 as [|? ? Hn _]; subst. apply Hn. now left.
Qed.

(** *** Where the serial numbers do stay distinct *)

Lemma na_text_not_int : forall s, is_na_text s = true -> Py.int s = None.
Proof.
  intros s H. unfold is_na_text in H. apply existsb_exists in H.
  destruct H as [x [Hin E]]. apply String.eqb_eq in E. subst x.
  unfold NA_VALUES in Hin. simpl in Hin.
  repeat (destruct Hin as [<-|Hin]; [reflexivity|]). contradiction.
Qed.

Lemma na_text_not_digit : forall s, is_na_text s = true -> Py.isdigit s = false.
Proof.
  intros s H. unfold is_na_text in H. apply existsb_exists in H.
  destruct H as [x [Hin E]]. apply String.eqb_eq in E. subst x.
  unfold NA_VALUES in Hin. simpl in Hin.
  repeat (destruct Hin as [<-|Hin]; [reflexivity|]). contradiction.
Qed.

Lemma str_int_not_na : forall z, is_na_text (Py.str_int z) = false.
Proof.
  intros z. apply not_true_is_false. intros H.
  apply na_text_not_int in H. rewrite PyFacts.int_str_int in H. discriminate.
Qed.








Section UpdateSerial.
Variable f : row -> row.
Variable ns : string.
Hypothesis f_serial : forall r, get SerialNo (f r) = CStr ns.




End UpdateSerial.












(** ** Further facts on deletion and paging *)

Lemma map_fixed_in : forall (A : Type) (f : A -> A) (l : list A),
  map f l = l -> forall x, In x l -> f x = x.
Proof.
  intros A f l. induction l as [|a l IH]; simpl; intros E x Hx; [contradiction|].
  injection E as Ea El. destruct Hx as [<-|Hx]; auto.
Qed.

Lemma filter_twice : forall (A : Type) (p : A -> bool) (l : list A),
  filter p (filter p l) = filter p l.
Proof.
  intros A p l. induction l as [|a l IH]; simpl; [reflexivity|].
  destruct (p a) eqn:E; simpl; [rewrite E; f_equal|]; exact IH.
Qed.

(** Deleting the same serials again from a loaded table changes nothing
    more. *)
Lemma delete_checked_twice : forall (df df1 : table) serials n,
  save_patients df = df ->
  _delete_checked df serials true = Done (df1, n) ->
  _delete_checked df1 serials true = Done (df1, n).
Proof.
  intros df df1 serials n Hload. unfold _delete_checked.
  destruct serials as [|s l]; [discriminate|]. cbn [negb].
  set (p := fun r => negb (isin (s :: l) (get SerialNo r))).
  intros [= <- <-].
  assert (E : save_patients (filter p df) = filter p df).
  { unfold save_patients. rewrite <- (map_id (filter p df)) at 2.
    apply map_ext_in. intros r Hr. apply filter_In in Hr.
    apply (map_fixed_in _ reload_row df Hload). tauto. }
  rewrite E, filter_twice, E. reflexivity.
Qed.

(** "Next" never leaves the pages of the list. *)
Lemma next_page_in_range : forall sorter (df : table) (v : view_vars) (i : nat),
  let total_pages :=
    total_pages_of PAGE_SIZE (List.length (_get_filtered_df sorter df v)) in
  (i < total_pages)%nat -> (next_page sorter df v i < total_pages)%nat.
Proof.
  intros sorter df v i total_pages Hi. unfold next_page. fold total_pages.
  destruct (Nat.ltb_spec i (total_pages - 1)) as [Hlt|Hge]; [|exact Hi].
  unfold _view_refresh, show_page. fold total_pages. cbn [fst].
  destruct (Nat.leb_spec total_pages (i + 1)); lia.
Qed.

(** * Further properties of the record store *)

(** ** Registration and the serial number offered *)







Lemma reload_cell_twice : forall c v,
  reload_cell c (reload_cell c v) = reload_cell c v.
Proof.
  intros c [s|z|]; simpl; [| |reflexivity].
  - destruct (is_na_text s) eqn:E; simpl; [reflexivity|now rewrite E].
  - destruct (str_typed c) eqn:E; simpl; [|now rewrite E].
    now rewrite str_int_not_na.
Qed.

(** X3.  Writing the table and reading it back settles it: a second
    round trip gives the same table as the first. *)
Theorem save_patients_twice : forall df : table,
  save_patients (save_patients df) = save_patients df.
Proof.
  intros df. unfold save_patients. rewrite map_map. apply map_ext.
  intros r. unfold reload_row. cbn [rSerialNo rPhotoPath rName rEmail rGender
    rAge rAddress rPhoneNo rOccupation rAadharNo rSymptoms rTreatment
    rStartDate rEndDate rSatisfied].
  now rewrite !reload_cell_twice.
Qed.



(** ** Editing *)

Lemma index_of_serial_from_none : forall df i x,
  in_values x (col SerialNo df) = false -> index_of_serial_from i x df = [].
Proof.
  induction df as [|r df IH]; intros i x H; [reflexivity|].
  cbn [col map in_values existsb] in H. apply orb_false_iff in H.
  destruct H as [Hr Hdf]. cbn [index_of_serial_from]. cbv zeta.
  rewrite (IH (S i) x Hdf).
  destruct (get SerialNo r) as [t|z|]; try reflexivity.
  rewrite String.eqb_sym, Hr. reflexivity.
Qed.

Lemma index_of_serial_from_some : forall df i x,
  in_values x (col SerialNo df) = true ->
  exists j rest, index_of_serial_from i x df = j :: rest /\ (i <= j)%nat.
Proof.
  induction df as [|r df IH]; intros i x H; [discriminate|].
  cbn [col map in_values existsb] in H. cbn [index_of_serial_from]. cbv zeta.
  destruct (get SerialNo r) as [t|z|] eqn:Er.
  - rewrite (String.eqb_sym t x). destruct (String.eqb x t) eqn:E.
    + eauto.
    + destruct (IH (S i) x H) as (j & rest & -> & Hj). exists j, rest.
      split; [reflexivity|lia].
  - destruct (IH (S i) x H) as (j & rest & -> & Hj). exists j, rest.
    split; [reflexivity|lia].
  - destruct (IH (S i) x H) as (j & rest & -> & Hj). exists j, rest.
    split; [reflexivity|lia].
Qed.

Lemma index_from_positive : forall df i x,
  Forall (fun j => (i <= j)%nat) (index_of_serial_from i x df).
Proof.
  induction df as [|r df IH]; intros i x; [constructor|].
  cbn [index_of_serial_from]. cbv zeta.
  assert (T : Forall (fun j => (i <= j)%nat) (index_of_serial_from (S i) x df)).
  { eapply Forall_impl; [|apply IH]. simpl. intros; lia. }
  destruct (get SerialNo r) as [t|z|]; auto.
  destruct (String.eqb t x); auto.
Qed.

Lemma index_any_first_row : forall r df x,
  index_any (index_of_serial x (r :: df))
  = index_any (index_of_serial_from 1 x df).
Proof.
  intros r df x. unfold index_of_serial. cbn [index_of_serial_from]. cbv zeta.
  destruct (get SerialNo r) as [t|z|]; try reflexivity.
  destruct (String.eqb t x); reflexivity.
Qed.

Lemma save_changes_any : forall df original e sym treat,
  save_changes df original e sym treat = Rejected NotFound <->
  index_any (index_of_serial (tk_str original) df) = false.
Proof.
  intros df original e sym treat. unfold save_changes.
  destruct (index_any (index_of_serial (tk_str original) df)); cbn [negb].
  - split; [|discriminate].
    destruct (negb _ && _); discriminate.
  - split; reflexivity.
Qed.

(** X5.  The edit window answers "could not find patient" exactly when no
    row after the first carries the serial looked up.  So the first row of
    the table, whose serial occurs nowhere else, cannot be edited, whatever
    is entered; and every row further down is found. *)
Theorem save_changes_not_found_iff :
  forall (r : row) (df : table) (original : tkval) (e : entries) (sym treat : string),
  save_changes (r :: df) original e sym treat = Rejected NotFound <->
  in_values (tk_str original) (col SerialNo df) = false.
Proof.
  intros r df original e sym treat.
  rewrite save_changes_any, index_any_first_row.
  destruct (in_values (tk_str original) (col SerialNo df)) eqn:Hin.
  - destruct (index_of_serial_from_some df 1 (tk_str original) Hin)
      as (j & rest & -> & Hj).
    simpl. destruct j; [lia|]. simpl. split; discriminate.
  - rewrite (index_of_serial_from_none df 1 _ Hin). split; reflexivity.
Qed.

Lemma reload_set_serial : forall r ns,
  reload_row r = r -> is_na_text ns = false ->
  reload_row (set SerialNo (CStr ns) r) = set SerialNo (CStr ns) r.
Proof.
  intros [a b n e g ag ad p o aa sy t sd ed sa] ns H Hna.
  unfold reload_row in *. simpl in *. rewrite Hna.
  injection H as Ha Hb Hn He Hg Hag Had Hp Ho Haa Hsy Ht Hsd Hed Hsa.
  congruence.
Qed.

Lemma save_update_loaded : forall (f : row -> row) df idx,
  save_patients df = df ->
  (forall r, reload_row r = r -> reload_row (f r) = f r) ->
  save_patients (update_at idx f df) = update_at idx f df.
Proof.
  unfold save_patients. intros f df. induction df as [|r df IH];
    intros idx Hload Hf; [destruct idx; reflexivity|].
  simpl in Hload. injection Hload as Hr Hdf.
  destruct idx as [|k]; simpl.
  - now rewrite Hf, Hdf.
  - now rewrite Hr, IH.
Qed.

Lemma update_at_length : forall (f : row -> row) df idx,
  List.length (update_at idx f df) = List.length df.
Proof.
  intros f df. induction df as [|r df IH]; intros [|k]; simpl; auto.
Qed.

Lemma update_at_col_other : forall (f : row -> row) c df idx,
  (forall r, get c (f r) = get c r) ->
  col c (update_at idx f df) = col c df.
Proof.
  unfold col. intros f c df. induction df as [|r df IH]; intros [|k] Hf;
    simpl; auto; [now rewrite Hf | now rewrite IH].
Qed.

(** X6.  A serial edit on the duplicates page that goes through changes the
    serial number of one row of a loaded table and nothing else: the new
    serial is a run of digits that was not in the table, the table keeps its
    length, and every other column is as before. *)
Theorem edit_duplicate_serial_effect :
  forall (df df' : table) (original : tkval) (new_serial : option string),
  save_patients df = df ->
  _edit_duplicate_serial df original new_serial = Done df' ->
  exists ns idx,
    new_serial = Some ns /\ Py.isdigit ns = true /\
    in_values ns (col SerialNo df) = false /\
    nth_error (col SerialNo df) idx = Some (CStr (tk_str original)) /\
    df' = update_at idx (set SerialNo (CStr ns)) df /\
    nth_error (col SerialNo df') idx = Some (CStr ns) /\
    List.length df' = List.length df /\
    forall c, c <> SerialNo -> col c df' = col c df.
Proof.
  intros df df' original new_serial Hload. unfold _edit_duplicate_serial.
  destruct new_serial as [ns|]; [|discriminate].
  destruct (is_empty ns || tk_eq_text ns original); [discriminate|].
  destruct (Py.isdigit ns) eqn:Hd; [|discriminate]. cbn [negb].
  destruct (in_values ns (col SerialNo df)) eqn:Hv; [discriminate|].
  destruct (index_of_serial (tk_str original) df) as [|idx rest] eqn:Ei;
    [discriminate|].
  intros [= <-].
  assert (Hna : is_na_text ns = false).
  { apply not_true_is_false. intros Hna. apply na_text_not_digit in Hna.
    congruence. }
  assert (Hnth : forall d i j, In j (index_of_serial_from i (tk_str original) d) ->
                 (i <= j)%nat /\
                 nth_error (col SerialNo d) (j - i) = Some (CStr (tk_str original)) /\
                 nth_error (col SerialNo (update_at (j - i) (set SerialNo (CStr ns)) d))
                           (j - i) = Some (CStr ns)).
  { induction d as [|r d IH]; intros i j Hj; [contradiction|].
    cbn [index_of_serial_from] in Hj. cbv zeta in Hj.
    assert (Hrest : In j (index_of_serial_from (S i) (tk_str original) d) ->
      (i <= j)%nat /\
      nth_error (col SerialNo (r :: d)) (j - i) = Some (CStr (tk_str original)) /\
      nth_error (col SerialNo (update_at (j - i) (set SerialNo (CStr ns)) (r :: d)))
                (j - i) = Some (CStr ns)).
    { intros Hin. destruct (IH (S i) j Hin) as (Hle & H1 & H2).
      replace (j - i)%nat with (S (j - S i)) by lia. simpl. auto with arith. }
    destruct (get SerialNo r) as [t|z|] eqn:Er; auto.
    destruct (String.eqb t (tk_str original)) eqn:Et; auto.
    destruct Hj as [<-|Hj]; auto.
    apply String.eqb_eq in Et. subst t. rewrite Nat.sub_diag.
    split; [lia|]. cbn [col map update_at nth_error].
    now rewrite Er, get_set_same. }
  destruct (Hnth df 0%nat idx) as (_ & H1 & H2).
  { unfold index_of_serial in Ei. rewrite Ei. now left. }
  rewrite Nat.sub_0_r in H1, H2.
  exists ns, idx.
  rewrite save_update_loaded
    by (try assumption; intros; now apply reload_set_serial).
  repeat split; try assumption.
  - apply update_at_length.
  - intros c Hc. apply update_at_col_other. intros r.
    now apply get_set_other.
Qed.

Lemma edit_duplicate_serial_effect_witness :
  save_patients three_serials = three_serials /\
  exists df',
    _edit_duplicate_serial three_serials (TInt 2) (Some "20") = Done df' /\
    List.length df' = 3%nat.
Proof.
  split; [reflexivity|].
  destruct (edit_duplicate_serial_effect three_serials _ (TInt 2) (Some "20")
              eq_refl eq_refl) as (ns & idx & _ & _ & _ & _ & _ & _ & Hl & _).
  eexists. split; [reflexivity | exact Hl].
Defined.

(** ** Deleting and selecting *)

Lemma save_filter_loaded : forall (p : row -> bool) df,
  save_patients df = df -> save_patients (filter p df) = filter p df.
Proof.
  intros p df Hload. unfold save_patients.
  rewrite <- (map_id (filter p df)) at 2.
  apply map_ext_in. intros r Hr. apply filter_In in Hr.
  apply (map_fixed_in _ reload_row df Hload). tauto.
Qed.

(** X7.  On a loaded table the checked serials split the rows in two: the
    records selected for export or statistics and the rows that remain
    after deleting with the same serials.  Together they are the table, row
    for row. *)
Theorem selected_and_kept_partition :
  forall (df : table) (serials : list string),
  save_patients df = df -> serials <> [] ->
  exists df' n,
    _delete_checked df serials true = Done (df', n) /\
    Permutation df (df' ++ _share_get_selected_records df serials) /\
    (List.length df' + List.length (_share_get_selected_records df serials)
     = List.length df)%nat /\
    (forall r, In r df' -> In r (_share_get_selected_records df serials) -> False).
Proof.
  intros df serials Hload Hne.
  destruct serials as [|s l]; [now elim Hne|].
  set (ss := s :: l).
  exists (filter (fun r => negb (isin ss (get SerialNo r))) df), (List.length ss).
  unfold _delete_checked, _share_get_selected_records. fold ss. cbn [negb].
  rewrite save_filter_loaded by assumption.
  split; [reflexivity|]. split; [|split].
  - apply (filter_split_perm row (fun r => isin ss (get SerialNo r))).
  - apply (filter_length_split row (fun r => isin ss (get SerialNo r))).
  - intros r H1 H2. apply filter_In in H1, H2.
    destruct H1 as [_ H1], H2 as [_ H2]. rewrite H2 in H1. discriminate.
Qed.

Lemma selected_and_kept_partition_witness :
  save_patients three_serials = three_serials /\ ["2"; "9"] <> [] /\
  exists df',
    Permutation three_serials
                (df' ++ _share_get_selected_records three_serials ["2"; "9"]).
Proof.
  split; [reflexivity|]. split; [discriminate|].
  destruct (selected_and_kept_partition three_serials ["2"; "9"] eq_refl
              ltac:(discriminate)) as (df' & n & _ & P & _).
  exists df'. exact P.
Defined.

(** X8.  Deleting is idempotent on a loaded table: deleting the same
    serials a second time removes nothing more. *)
Theorem delete_checked_idempotent : forall (df df1 : table) serials n,
  save_patients df = df ->
  _delete_checked df serials true = Done (df1, n) ->
  _delete_checked df1 serials true = Done (df1, n).
Proof.
  intros df df1 serials n Hload. unfold _delete_checked.
  destruct serials as [|s l]; [discriminate|]. cbn [negb].
  intros [= <- <-].
  rewrite !(save_filter_loaded _ df Hload).
  now rewrite filter_twice, (save_filter_loaded _ df Hload).
Qed.

Lemma delete_checked_idempotent_witness :
  save_patients three_serials = three_serials /\
  _delete_checked three_serials ["2"; "9"] true = Done ([srow "1"; srow "3"], 2%nat) /\
  _delete_checked [srow "1"; srow "3"] ["2"; "9"] true
  = Done ([srow "1"; srow "3"], 2%nat).
Proof.
  split; [reflexivity|]. split; [reflexivity|].
  exact (delete_checked_idempotent three_serials _ ["2"; "9"] 2 eq_refl eq_refl).
Defined.

(** The serial the list hands back is the decimal text of the number the
    shown text reads as, and the shown text itself when it reads as no
    number. *)
Lemma checked_serial_cases : forall r,
  match Py.int (cell_str (get SerialNo r)) with
  | Some z => checked_serial r = Py.str_int z
  | None => checked_serial r = cell_str (get SerialNo r)
  end.
Proof.
  intros r. unfold checked_serial, tk_convert.
  destruct (Py.int (cell_str (get SerialNo r))); reflexivity.
Qed.

Lemma filter_none : forall (A : Type) (p : A -> bool) (l : list A),
  (forall x, In x l -> p x = false) -> filter p l = [].
Proof.
  intros A p l. induction l as [|a l IH]; intros H; [reflexivity|].
  cbn [filter]. rewrite (H a (or_introl eq_refl)). apply IH.
  intros x Hx. apply H. now right.
Qed.

Lemma isin_one : forall t c, isin [t] c = true <-> c = CStr t.
Proof.
  intros t c. rewrite isin_iff. split.
  - intros [s [[<-|[]] E]]. exact E.
  - intros ->. exists t. split; [now left|reflexivity].
Qed.

Lemma filter_unique_serial : forall (df : table) (r : row) (t : string),
  In r df -> get SerialNo r = CStr t -> NoDup (serial_texts df) ->
  filter (fun x => isin [t] (get SerialNo x)) df = [r].
Proof.
  unfold serial_texts, col. intros df r t.
  induction df as [|x df IH]; intros Hr Hs Hnd; [contradiction|].
  cbn [map] in Hnd. inversion Hnd as [|? ? Hx Hnd']; subst.
  assert (Hin : forall y, In y df -> get SerialNo y = CStr t ->
                          In t (map cell_str (map (get SerialNo) df))).
  { intros y Hy Ey. apply in_map_iff. exists (CStr t). split; [reflexivity|].
    apply in_map_iff. exists y. auto. }
  cbn [filter]. destruct Hr as [->|Hr].
  - rewrite (proj2 (isin_one t _) Hs). f_equal. apply filter_none.
    intros y Hy. apply not_true_is_false. intros Ey. apply isin_one in Ey.
    apply Hx. change (rSerialNo r) with (get SerialNo r).
    rewrite Hs. simpl. eauto.
  - destruct (isin [t] (get SerialNo x)) eqn:Ex; [|now apply IH].
    exfalso. apply isin_one in Ex. apply Hx.
    change (rSerialNo x) with (get SerialNo x). rewrite Ex. simpl. eauto.
Qed.

(** X9.  A serial number the application has written, the decimal text of
    an integer, comes back from the list unchanged, so checking such a row
    of a table with distinct serials and deleting removes that row and no
    other, and the count of 1 in the message is right. *)
Theorem delete_checked_row : forall (df : table) (r : row) (z : Z),
  In r df ->
  get SerialNo r = CStr (Py.str_int z) ->
  NoDup (serial_texts df) ->
  checked_serial r = Py.str_int z /\
  exists df',
    _delete_checked df [checked_serial r] true = Done (save_patients df', 1%nat) /\
    Permutation df (r :: df') /\ ~ In r df'.
Proof.
  intros df r z Hr Hs Hnd.
  assert (Hc : checked_serial r = Py.str_int z).
  { pose proof (checked_serial_cases r) as C. rewrite Hs in C. simpl in C.
    now rewrite PyFacts.int_str_int in C. }
  split; [exact Hc|]. rewrite Hc.
  set (p := fun x => isin [Py.str_int z] (get SerialNo x)).
  exists (filter (fun x => negb (p x)) df). split; [reflexivity|].
  assert (Hsel : filter p df = [r]) by now apply filter_unique_serial.
  split.
  - rewrite (filter_split_perm row p df) at 1. rewrite Hsel.
    symmetry. apply Permutation_cons_append.
  - intros Hin. apply filter_In in Hin. destruct Hin as [_ Hin].
    unfold p in Hin. rewrite (proj2 (isin_one _ _) Hs) in Hin. discriminate.
Qed.

Lemma delete_checked_row_witness :
  In (srow "2") three_serials /\ get SerialNo (srow "2") = CStr (Py.str_int 2) /\
  NoDup (serial_texts three_serials) /\
  checked_serial (srow "2") = "2".
Proof.
  assert (N : NoDup (serial_texts three_serials)).
  { unfold serial_texts, three_serials. simpl.
    repeat constructor; simpl; intuition discriminate. }
  split; [right; left; reflexivity|]. split; [reflexivity|]. split; [exact N|].
  exact (proj1 (delete_checked_row three_serials (srow "2") 2
                  (or_intror (or_introl eq_refl)) eq_refl N)).
Defined.

(** X10.  A row whose serial reads as a number but is not written the way
    the application writes it (leading zeros, a sign, blanks) cannot be
    deleted by checking it: the list hands back the canonical text, which
    does not match, and the row stays. *)
Theorem delete_noncanonical_row_stays :
  forall (df : table) (r : row) (s : string) (z : Z),
  In r df ->
  get SerialNo r = CStr s ->
  Py.int s = Some z ->
  s <> Py.str_int z ->
  exists df',
    _delete_checked df [checked_serial r] true = Done (df', 1%nat) /\
    In (reload_row r) df'.
Proof.
  intros df r s z Hr Hs Hz Hne.
  assert (Hc : checked_serial r = Py.str_int z).
  { pose proof (checked_serial_cases r) as C. rewrite Hs in C. simpl in C.
    now rewrite Hz in C. }
  rewrite Hc. eexists. split; [reflexivity|].
  unfold save_patients. apply in_map. apply filter_In. split; [assumption|].
  rewrite Hs. simpl. rewrite orb_false_r. apply negb_true_iff.
  apply String.eqb_neq. exact Hne.
Qed.

Lemma delete_noncanonical_row_stays_witness :
  In (srow "007") [srow "007"; srow "7"] /\
  get SerialNo (srow "007") = CStr "007" /\ Py.int "007" = Some 7 /\
  "007" <> Py.str_int 7 /\
  exists df',
    _delete_checked [srow "007"; srow "7"] [checked_serial (srow "007")] true
    = Done (df', 1%nat) /\ In (reload_row (srow "007")) df'.
Proof.
  split; [left; reflexivity|]. split; [reflexivity|]. split; [reflexivity|].
  split; [discriminate|].
  exact (delete_noncanonical_row_stays [srow "007"; srow "7"] (srow "007") "007" 7
           (or_introl eq_refl) eq_refl eq_refl ltac:(discriminate)).
Defined.

(** ** Paging *)

Lemma firstn_plus : forall (A : Type) (a b : nat) (l : list A),
  firstn (a + b) l = firstn a l ++ firstn b (skipn a l).
Proof.
  intros A a. induction a as [|a IH]; intros b l; [reflexivity|].
  destruct l as [|x l]; simpl.
  - now rewrite firstn_nil.
  - now rewrite IH.
Qed.

Lemma pages_prefix : forall (page_size : nat) (df : table) (t : nat),
  List.concat (map (fun k => firstn page_size (skipn (k * page_size) df)) (seq 0 t))
  = firstn (t * page_size) df.
Proof.
  intros ps df t. induction t as [|t IH]; [reflexivity|].
  rewrite seq_S, map_app, concat_app, IH. cbn [map List.concat plus].
  rewrite app_nil_r.
  replace (S t * ps)%nat with (t * ps + ps)%nat by lia.
  now rewrite firstn_plus.
Qed.

(** X11.  The pages cover the list: with a positive page size, putting the
    rows shown on page 0, 1, ... up to the last page one after the other
    gives back the filtered rows, each row once and in order; within the
    page count the page index asked for is the one shown. *)
Theorem pages_cover_rows : forall (page_size : nat) (df : table),
  (0 < page_size)%nat ->
  let total_pages := total_pages_of page_size (List.length df) in
  List.concat (map (fun k => snd (fst (show_page page_size df k))) (seq 0 total_pages))
  = df /\
  forall k, (k < total_pages)%nat -> fst (fst (show_page page_size df k)) = k.
Proof.
  intros ps df Hps total_pages.
  assert (Hk : forall k, (k < total_pages)%nat ->
                 show_page ps df k
                 = (k, firstn ps (skipn (k * ps) df), total_pages)).
  { intros k Hlt. unfold show_page. fold total_pages.
    destruct (Nat.leb_spec total_pages k); [lia|reflexivity]. }
  split.
  - rewrite (map_ext_in _ (fun k => firstn ps (skipn (k * ps) df))).
    + rewrite pages_prefix. apply firstn_all2.
      unfold total_pages, total_pages_of.
      destruct (ceil_div_bounds ps (List.length df) Hps) as [A _]. nia.
    + intros k Hin. apply in_seq in Hin. rewrite Hk by lia. reflexivity.
  - intros k Hlt. now rewrite Hk.
Qed.

Lemma pages_cover_rows_witness :
  (0 < 2)%nat /\
  List.concat (map (fun k => snd (fst (show_page 2 five_rows k))) (seq 0 3)) = five_rows.
Proof.
  split; [lia|].
  exact (proj1 (pages_cover_rows 2 five_rows ltac:(lia))).
Defined.

(** X12.  "Prev" and "Next" on the edit, delete and share pages never leave
    the range of pages: from a page index below the page count the index
    stays below it, at page 0 "Prev" does nothing and on the last page
    "Next" does nothing; and "Prev" undoes a "Next" that moved. *)
Theorem page_change_in_range : forall (df : table) (i : nat),
  let total := total_pages_of PAGE_SIZE (List.length df) in
  (i < total)%nat ->
  (page_change df 1 i < total)%nat /\
  (page_change df (-1) i < total)%nat /\
  page_change df (-1) 0 = 0%nat /\
  page_change df 1 (total - 1) = (total - 1)%nat /\
  ((i + 1 < total)%nat ->
   page_change df 1 i = (i + 1)%nat /\
   page_change df (-1) (page_change df 1 i) = i).
Proof.
  intros df i total Hi.
  assert (Hpos : (1 <= total)%nat) by apply total_pages_positive.
  assert (Hmove : forall j d, (0 <= Z.of_nat j + d < Z.of_nat total) ->
                  page_change df d j = Z.to_nat (Z.of_nat j + d)).
  { intros j d Hr. unfold page_change. fold total.
    destruct (Z.leb_spec 0 (Z.of_nat j + d)); [|lia].
    destruct (Z.ltb_spec (Z.of_nat j + d) (Z.of_nat total)); [|lia].
    cbn [andb]. unfold show_page. fold total. cbn [fst].
    destruct (Nat.leb_spec total (Z.to_nat (Z.of_nat j + d))); [lia|reflexivity]. }
  assert (Hstay : forall j d, ~ (0 <= Z.of_nat j + d < Z.of_nat total) ->
                  page_change df d j = j).
  { intros j d Hr. unfold page_change. fold total.
    destruct (Z.leb_spec 0 (Z.of_nat j + d));
      destruct (Z.ltb_spec (Z.of_nat j + d) (Z.of_nat total));
      cbn [andb]; try reflexivity. lia. }
  split; [|split; [|split; [|split; [|intros H; split]]]].
  - destruct (Z_lt_dec (Z.of_nat i + 1) (Z.of_nat total)).
    + rewrite Hmove by lia. lia.
    + rewrite Hstay by lia. lia.
  - destruct (Z_le_dec 0 (Z.of_nat i + -1)).
    + rewrite Hmove by lia. lia.
    + rewrite Hstay by lia. lia.
  - apply Hstay. lia.
  - apply Hstay. lia.
  - rewrite Hmove by lia. lia.
  - rewrite (Hmove i 1) by lia. rewrite Hmove by lia. lia.
Qed.

Lemma page_change_in_range_witness :
  (0 < total_pages_of PAGE_SIZE (List.length five_rows))%nat /\
  page_change five_rows 1 0 = 0%nat /\ page_change five_rows (-1) 0 = 0%nat.
Proof.
  assert (H : (0 < total_pages_of PAGE_SIZE (List.length five_rows))%nat)
    by (vm_compute; lia).
  split; [exact H|].
  destruct (page_change_in_range five_rows 0 H) as (_ & _ & P & N & _).
  split; [exact N | exact P].
Defined.

(** X13.  "Next" on the records view never leaves the range of pages. *)
Theorem next_page_stays_in_range :
  forall sorter (df : table) (v : view_vars) (i : nat),
  let total_pages :=
    total_pages_of PAGE_SIZE (List.length (_get_filtered_df sorter df v)) in
  (i < total_pages)%nat ->
  (next_page sorter df v i < total_pages)%nat /\
  ((i + 1 < total_pages)%nat -> next_page sorter df v i = (i + 1)%nat) /\
  ((i + 1 = total_pages)%nat -> next_page sorter df v i = i) /\
  (prev_page sorter df v i <= i)%nat.
Proof.
  intros sorter df v i total_pages Hi.
  assert (Hshow : forall j, (j < total_pages)%nat ->
                  fst (fst (_view_refresh sorter df v j)) = j).
  { intros j Hj. unfold _view_refresh, show_page. fold total_pages. cbn [fst].
    destruct (Nat.leb_spec total_pages j); [lia|reflexivity]. }
  unfold next_page, prev_page. fold total_pages.
  destruct (Nat.ltb_spec i (total_pages - 1)) as [Hlt|Hge];
    destruct (Nat.ltb_spec 0 i) as [Hp|Hz];
    (split; [|split; [|split]]); intros; try rewrite !Hshow by lia; lia.
Qed.

Lemma next_page_stays_in_range_witness :
  (0 < total_pages_of PAGE_SIZE
         (List.length (_get_filtered_df stable_sort five_rows by_age)))%nat /\
  next_page stable_sort five_rows by_age 0 = 0%nat.
Proof.
  assert (H : (0 < total_pages_of PAGE_SIZE
                 (List.length (_get_filtered_df stable_sort five_rows by_age)))%nat)
    by (vm_compute; lia).
  split; [exact H|].
  destruct (next_page_stays_in_range stable_sort five_rows by_age 0 H)
    as (_ & _ & E & _).
  apply E. reflexivity.
Defined.

(** ** Statistics: gender figures and the average age *)

Lemma gender_counts : forall df : table,
  (count_gender "Male" df + count_gender "Female" df
   + List.length (filter (fun r => negb (cell_is_text "Male" (get Gender r))
                                   && negb (cell_is_text "Female" (get Gender r))) df)
   = List.length df)%nat.
Proof.
  unfold count_gender. induction df as [|r df IH]; [reflexivity|].
  cbn [filter List.length].
  destruct (get Gender r) as [t|z|]; cbn [cell_is_text negb andb List.length];
    try lia.
  destruct (String.eqb t "Male") eqn:Em; destruct (String.eqb t "Female") eqn:Ef;
    cbn [negb andb List.length]; try lia.
  apply String.eqb_eq in Em, Ef. subst t. discriminate.
Qed.

(** X14.  In both statistics windows the three gender figures add up to
    the number of records, and "Other" is exactly the number of records
    whose gender is neither the text "Male" nor the text "Female": blanks,
    other spellings and missing values all fall there. *)
Theorem stats_gender_counts : forall (df : table) (serials : list string) (st : stats),
  _show_stats df = Some st \/ _share_show_stats df serials = Some st ->
  exists rows,
    (_show_stats df = Some st /\ rows = df \/
     _share_show_stats df serials = Some st /\
     rows = _share_get_selected_records df serials) /\
    total st = List.length rows /\
    (males st + females st + others st = total st)%nat /\
    others st
    = List.length (filter (fun r => negb (cell_is_text "Male" (get Gender r))
                                    && negb (cell_is_text "Female" (get Gender r)))
                          rows).
Proof.
  intros df serials st H.
  assert (G : forall na rows, st = summarize na rows ->
    total st = List.length rows /\
    (males st + females st + others st = total st)%nat /\
    others st
    = List.length (filter (fun r => negb (cell_is_text "Male" (get Gender r))
                                    && negb (cell_is_text "Female" (get Gender r)))
                          rows)).
  { intros na rows ->. unfold summarize. cbn [total males females others].
    pose proof (gender_counts rows). split; [reflexivity|]. lia. }
  destruct H as [H|H].
  - exists df. split; [left; auto|]. unfold _show_stats in H.
    destruct df as [|r df]; [discriminate|]. injection H as <-. now apply (G "N/A").
  - exists (_share_get_selected_records df serials). split; [right; auto|].
    unfold _share_show_stats in H.
    destruct (_share_get_selected_records df serials) as [|r sel];
      [discriminate|]. injection H as <-. now apply (G "nan").
Qed.

Lemma stats_gender_counts_witness :
  exists st, _show_stats three_patients = Some st /\
             (males st + females st + others st = total st)%nat /\
             others st = 3%nat.
Proof.
  eexists. split; [reflexivity|].
  destruct (stats_gender_counts three_patients [] _ (or_introl eq_refl))
    as (rows & _ & _ & S & _).
  split; [exact S | reflexivity].
Defined.




(** ** Most common value *)

Lemma first_seen_in : forall l x, In x (first_seen l) <-> In x l.
Proof.
  induction l as [|y l IH]; intros x; [reflexivity|].
  cbn [first_seen]. split.
  - intros [->|H]; [now left|]. apply filter_In in H. right. now apply IH.
  - intros [->|H]; [now left|].
    destruct (String.eqb_spec x y) as [->|Hne]; [now left|].
    right. apply filter_In. split; [now apply IH|].
    apply negb_true_iff. now apply String.eqb_neq.
Qed.

(** X16.  The most common value is "N/A" for an empty set of records;
    otherwise it is a text of the column that no other text of the column
    outnumbers. *)
Theorem get_most_common_spec :
  forall count_sorter (df : table) (c : column),
  sorts_counts count_sorter ->
  let texts := map cell_str (col c df) in
  let t := get_most_common count_sorter df c in
  (df = [] /\ t = "N/A") \/
  (df <> [] /\ In t texts /\
   forall u, (occurrences u texts <= occurrences t texts)%nat).
Proof.
  intros cs df c Hs texts t.
  destruct df as [|r df]; [left; auto|right]. split; [discriminate|].
  set (le := fun a b : string * nat => (snd b <=? snd a)%nat).
  set (tab := map (fun x => (x, occurrences x texts)) (first_seen texts)).
  destruct (Hs le tab) as [P S].
  { intros a b. unfold le. destruct (Nat.leb_spec (snd b) (snd a)); [auto|].
    right. apply Nat.leb_le. lia. }
  { intros a b d. unfold le. rewrite !Nat.leb_le. lia. }
  assert (Htab : forall x n, In (x, n) tab <-> In x texts /\ n = occurrences x texts).
  { intros x n. unfold tab. rewrite in_map_iff. split.
    - intros [y [[= <- <-] Hy]]. split; [now apply first_seen_in|reflexivity].
    - intros [Hx ->]. exists x. split; [reflexivity|now apply first_seen_in]. }
  assert (Et : t = match cs le tab with [] => "N/A" | (x, _) :: _ => x end)
    by reflexivity.
  destruct (cs le tab) as [|[x n] rest] eqn:E.
  - exfalso. apply Permutation_sym, Permutation_nil in P.
    assert (In (cell_str (get c r), occurrences (cell_str (get c r)) texts) tab).
    { apply Htab. split; [now left|reflexivity]. }
    rewrite P in H. contradiction.
  - subst t. rewrite Et. assert (Hx : In (x, n) tab).
    { apply (Permutation_in _ (Permutation_sym P)). now left. }
    apply Htab in Hx. destruct Hx as [Hx ->]. split; [exact Hx|].
    intros u. destruct (in_dec string_dec u texts) as [Hu|Hu].
    + assert (Hin : In (u, occurrences u texts) ((x, occurrences x texts) :: rest)).
      { apply (Permutation_in _ P). apply Htab. auto. }
      destruct Hin as [[= -> _]|Hin]; [lia|].
      inversion S as [|? ? _ Hall]; subst. rewrite Forall_forall in Hall.
      specialize (Hall _ Hin). unfold le in Hall. cbn [snd] in Hall.
      now apply Nat.leb_le.
    + replace (occurrences u texts) with 0%nat; [lia|].
      unfold occurrences. rewrite filter_none; [reflexivity|].
      intros y Hy. apply String.eqb_neq. intros ->. contradiction.
Qed.

Lemma stable_sort_sorts_counts : sorts_counts stable_sort.
Proof.
  intros le l Ht Htr. split;
    [apply stable_sort_perm | now apply stable_sort_sorted].
Qed.

Lemma get_most_common_spec_witness :
  let df := [set Symptoms (CStr "cough") (srow "1");
             set Symptoms (CStr "fever") (srow "2");
             set Symptoms (CStr "fever") (srow "3")] in
  sorts_counts stable_sort /\
  get_most_common stable_sort df Symptoms = "fever" /\
  forall u, (occurrences u (map cell_str (col Symptoms df))
             <= occurrences "fever" (map cell_str (col Symptoms df)))%nat.
Proof.
  intros df. split; [exact stable_sort_sorts_counts|]. split; [reflexivity|].
  destruct (get_most_common_spec stable_sort df Symptoms stable_sort_sorts_counts)
    as [[E _]|(_ & _ & H)]; [discriminate E | exact H].
Defined.

(** ** Sequences of changes *)


(** ** Import and the next serial number *)







(** ** What the sorted views keep *)

(** X19.  Sorting neither drops nor adds rows: whatever the sort key, the
    records view lists exactly the rows that pass the search and the gender
    filter (with the sort column read as numbers for [SerialNo] and [Age]),
    so the total it shows is their number and never more than the table
    holds; the edit page lists the same rows in the same order. *)
Theorem view_keeps_rows : forall sorter (df : table) (v : view_vars),
  sorts sorter ->
  let kept := gender_rows (gender_filter_var v) (search_rows (search_var v) df) in
  let view := _get_filtered_df sorter df v in
  (Permutation kept view \/
   exists c, column_of_name (sort_by_var v) = Some c /\ numeric_key c = true /\
             Permutation (map (coerce c) kept) view) /\
  List.length view = List.length kept /\
  (List.length view <= List.length df)%nat /\
  _edit_get_filtered_df sorter df v = view.
Proof.
  intros sorter df v Hs kept view.
  assert (P : Permutation kept view \/
              exists c, column_of_name (sort_by_var v) = Some c /\
                        numeric_key c = true /\
                        Permutation (map (coerce c) kept) view).
  { unfold view, _get_filtered_df. fold kept.
    destruct (column_of_name (sort_by_var v)) as [c|]; [|left; reflexivity].
    destruct (numeric_key c) eqn:Hn.
    - right. exists c. split; [reflexivity|]. split; [exact Hn|].
      destruct (sort_values sorter c (map (coerce c) kept)) eqn:E;
        [eapply sort_values_perm; eauto | reflexivity].
    - left. destruct (sort_values sorter c kept) eqn:E;
        [eapply sort_values_perm; eauto | reflexivity]. }
  assert (L : List.length view = List.length kept).
  { destruct P as [P|(c & _ & _ & P)];
      apply Permutation_length in P; rewrite <- P;
      [reflexivity | apply length_map]. }
  split; [exact P|]. split; [exact L|]. split; [|reflexivity].
  rewrite L. unfold kept, gender_rows, search_rows.
  destruct (String.eqb _ "All"), (is_empty _);
    repeat (etransitivity; [apply filter_length_le|]); lia.
Qed.

Lemma view_keeps_rows_witness :
  sorts stable_sort /\
  List.length (_get_filtered_df stable_sort two_same_age by_age) = 2%nat.
Proof.
  split; [exact stable_sort_sorts|].
  destruct (view_keeps_rows stable_sort two_same_age by_age stable_sort_sorts)
    as (_ & L & _).
  exact L.
Defined.

(** ** Deleting duplicates *)

Lemma df_dups_member : forall (df : table) (r : row),
  In r (df_dups df) <->
  In r df /\ all_missing r = false /\
  (2 <= List.length (filter (same_key r) df))%nat.
Proof.
  intros df r. unfold df_dups.
  rewrite <- (Permutation_in' (eq_refl r) (stable_sort_perm name_serial_leb _)).
  rewrite filter_In. unfold df_for_check at 1. rewrite filter_In.
  unfold duplicated. rewrite negb_true_iff, Nat.leb_le. split.
  - intros [[Hr Hm] Hc]. rewrite same_key_in_check in Hc by assumption. auto.
  - intros [Hr [Hm Hc]]. rewrite same_key_in_check by assumption. auto.
Qed.

Lemma filter_filter_length : forall (A : Type) (p q : A -> bool) (l : list A),
  (List.length (filter q (filter p l)) <= List.length (filter q l))%nat.
Proof.
  intros A p q l. induction l as [|a l IH]; [reflexivity|]. cbn [filter].
  destruct (p a); cbn [filter]; destruct (q a); cbn [List.length]; lia.
Qed.

(** X20.  Deleting the selected duplicates from a loaded table only ever
    shortens the duplicates list: the rows that remain are the rows whose
    serial was not selected, and every row the page lists afterwards was
    listed before. *)
Theorem delete_duplicates_no_new :
  forall (df df' : table) (serials : list string) (confirm : bool),
  save_patients df = df ->
  delete_selected_duplicates df serials confirm = Done df' ->
  (forall r, In r df' <-> In r df /\ isin serials (get SerialNo r) = false) /\
  (forall r, In r (df_dups df') -> In r (df_dups df)).
Proof.
  intros df df' serials confirm Hload. unfold delete_selected_duplicates.
  destruct serials as [|s l]; [discriminate|].
  destruct confirm; [|discriminate]. cbn [negb].
  rewrite save_filter_loaded by assumption. intros [= <-].
  assert (Hmem : forall r,
    In r (filter (fun x => negb (isin (s :: l) (get SerialNo x))) df) <->
    In r df /\ isin (s :: l) (get SerialNo r) = false).
  { intros r. rewrite filter_In, negb_true_iff. reflexivity. }
  split; [exact Hmem|].
  intros r Hr. apply df_dups_member in Hr. destruct Hr as (Hin & Hm & Hc).
  apply df_dups_member. apply Hmem in Hin. destruct Hin as [Hin _].
  split; [assumption|]. split; [assumption|].
  etransitivity; [exact Hc|]. apply filter_filter_length.
Qed.

Lemma delete_duplicates_no_new_witness :
  save_patients three_patients = three_patients /\
  exists df', delete_selected_duplicates three_patients ["3"] true = Done df' /\
              df_dups df' = [] /\
              forall r, In r (df_dups df') -> In r (df_dups three_patients).
Proof.
  split; [reflexivity|]. eexists. split; [reflexivity|]. split; [reflexivity|].
  exact (proj2 (delete_duplicates_no_new three_patients _ ["3"] true
                  eq_refl eq_refl)).
Defined.

(** ** Searching *)

Lemma lower_char_space : forall a, Py.is_space (PyText.lower_char a) = Py.is_space a.
Proof. intros [[] [] [] [] [] [] [] []]; reflexivity. Qed.

Lemma lstrip_lower : forall s,
  Py.lstrip (PyText.lower s) = PyText.lower (Py.lstrip s).
Proof.
  induction s as [|a s IH]; [reflexivity|].
  cbn [PyText.lower Py.lstrip]. rewrite lower_char_space.
  destruct (Py.is_space a); [exact IH|reflexivity].
Qed.

Lemma rstrip_lower : forall s,
  Py.rstrip (PyText.lower s) = PyText.lower (Py.rstrip s).
Proof.
  induction s as [|a s IH]; [reflexivity|].
  cbn [PyText.lower Py.rstrip]. rewrite IH, lower_char_space.
  destruct (Py.rstrip s); cbn [PyText.lower];
    [destruct (Py.is_space a)|]; reflexivity.
Qed.

Lemma strip_lower : forall s,
  PyText.lower (Py.strip s) = Py.strip (PyText.lower s).
Proof. intros s. unfold Py.strip. now rewrite lstrip_lower, rstrip_lower. Qed.

(** X21.  The search does not depend on the letter case of what is typed:
    two search texts that differ only in case list the same rows, on the
    records, edit and delete pages and on the share page. *)
Theorem search_ignores_case : forall (s1 s2 : string) (df : table),
  PyText.lower s1 = PyText.lower s2 ->
  search_rows s1 df = search_rows s2 df /\
  _delete_get_filtered_df df s1 = _delete_get_filtered_df df s2 /\
  _share_get_filtered_df df s1 = _share_get_filtered_df df s2.
Proof.
  intros s1 s2 df H.
  assert (E : PyText.lower (Py.strip s1) = PyText.lower (Py.strip s2))
    by now rewrite !strip_lower, H.
  unfold _delete_get_filtered_df, _share_get_filtered_df, search_rows.
  now rewrite E.
Qed.

Lemma search_ignores_case_witness :
  PyText.lower "FeVer " = PyText.lower "fever " /\
  search_rows "FeVer " [set Symptoms (CStr "High Fever") (srow "1"); srow "2"]
  = search_rows "fever " [set Symptoms (CStr "High Fever") (srow "1"); srow "2"].
Proof.
  split; [reflexivity|].
  exact (proj1 (search_ignores_case "FeVer " "fever "
                  [set Symptoms (CStr "High Fever") (srow "1"); srow "2"] eq_refl)).
Defined.

(** X22.  A record the share page finds is found by the delete page with
    the same search text, since the share page looks at four of the
    columns the delete page looks at; a blank search lists the whole table
    on both. *)
Theorem share_search_within_delete_search : forall (df : table) (s : string),
  (forall r, In r (_share_get_filtered_df df s) ->
             In r (_delete_get_filtered_df df s)) /\
  (Py.strip s = "" ->
   _share_get_filtered_df df s = df /\ _delete_get_filtered_df df s = df).
Proof.
  intros df s. unfold _share_get_filtered_df, _delete_get_filtered_df, search_rows.
  split.
  - intros r. destruct (is_empty (PyText.lower (Py.strip s))); [auto|].
    rewrite !filter_In. intros [Hr H]. split; [assumption|].
    apply existsb_exists in H. destruct H as [c [Hc H]].
    apply existsb_exists. exists c. split; [|assumption].
    destruct c; simpl; auto 20.
  - intros ->. split; reflexivity.
Qed.

(** ** Check boxes *)

Lemma state_get_set_same : forall k b st, state_get k (state_set k b st) = b.
Proof.
  intros k b st. induction st as [|[iid c] st IH]; simpl.
  - now rewrite String.eqb_refl.
  - destruct (String.eqb iid k) eqn:E; simpl; rewrite E; auto.
Qed.

Lemma state_get_set_other : forall k k' b st,
  k' <> k -> state_get k' (state_set k b st) = state_get k' st.
Proof.
  intros k k' b st Hne. induction st as [|[iid c] st IH]; simpl.
  - replace (String.eqb k k') with false; [reflexivity|].
    symmetry. apply String.eqb_neq. congruence.
  - destruct (String.eqb iid k) eqn:E; simpl.
    + apply String.eqb_eq in E. subst iid.
      replace (String.eqb k k') with false; [reflexivity|].
      symmetry. apply String.eqb_neq. congruence.
    + now rewrite IH.
Qed.

Lemma state_set_keys : forall k b st,
  In k (map fst st) -> map fst (state_set k b st) = map fst st.
Proof.
  intros k b st. induction st as [|[iid c] st IH]; simpl; [contradiction|].
  intros H. destruct (String.eqb iid k) eqn:E; simpl; [reflexivity|].
  f_equal. apply IH. destruct H as [H|H]; [|assumption].
  apply String.eqb_neq in E. contradiction.
Qed.

Lemma state_set_set : forall k b b' st,
  In k (map fst st) -> state_set k b' (state_set k b st) = state_set k b' st.
Proof.
  intros k b b' st. induction st as [|[iid c] st IH]; simpl; [contradiction|].
  intros H. destruct (String.eqb iid k) eqn:E; simpl; rewrite E; [reflexivity|].
  f_equal. apply IH. destruct H as [H|H]; [|assumption].
  apply String.eqb_neq in E. contradiction.
Qed.

Lemma state_set_get : forall k st,
  In k (map fst st) -> state_set k (state_get k st) st = st.
Proof.
  intros k st. induction st as [|[iid c] st IH]; simpl; [contradiction|].
  intros H. destruct (String.eqb iid k) eqn:E; [reflexivity|].
  f_equal. apply IH. destruct H as [H|H]; [|assumption].
  apply String.eqb_neq in E. contradiction.
Qed.

(** X23.  A click on the box of a listed row flips that row's check mark
    and no other; a second click on the same box restores the selection. *)
Theorem on_click_flips : forall (row_id : string) (st : checkbox_state),
  In row_id (map fst st) ->
  state_get row_id (on_click row_id st) = negb (state_get row_id st) /\
  (forall other, other <> row_id ->
     state_get other (on_click row_id st) = state_get other st) /\
  map fst (on_click row_id st) = map fst st /\
  on_click row_id (on_click row_id st) = st.
Proof.
  intros k st Hk. unfold on_click. split; [apply state_get_set_same|].
  split; [intros; now apply state_get_set_other|].
  split; [now apply state_set_keys|].
  rewrite state_get_set_same, negb_involutive.
  rewrite state_set_set by assumption. now apply state_set_get.
Qed.

Lemma on_click_flips_witness :
  In "I002" (map fst (unchecked ["I001"; "I002"])) /\
  on_click "I002" (unchecked ["I001"; "I002"]) = [("I001", false); ("I002", true)] /\
  on_click "I002" (on_click "I002" (unchecked ["I001"; "I002"]))
  = unchecked ["I001"; "I002"].
Proof.
  split; [right; left; reflexivity|]. split; [reflexivity|].
  exact (proj2 (proj2 (proj2 (on_click_flips "I002" (unchecked ["I001"; "I002"])
                                (or_intror (or_introl eq_refl)))))).
Defined.

Lemma state_set_map : forall k b st,
  NoDup (map fst st) -> In k (map fst st) ->
  state_set k b st
  = map (fun ib => if String.eqb (fst ib) k then (fst ib, b) else ib) st.
Proof.
  intros k b st. induction st as [|[iid c] st IH]; simpl; [contradiction|].
  intros Hnd Hin. inversion Hnd as [|? ? Hn Hnd']; subst.
  destruct (String.eqb iid k) eqn:E.
  - f_equal. apply String.eqb_eq in E. subst iid.
    rewrite <- (map_id st) at 1. apply map_ext_in. intros [j d] Hj. simpl.
    destruct (String.eqb_spec j k) as [->|]; [|reflexivity].
    exfalso. apply Hn. apply in_map_iff. exists (k, d). auto.
  - f_equal. apply IH; [assumption|]. destruct Hin as [H|H]; [|assumption].
    apply String.eqb_neq in E. contradiction.
Qed.

Lemma fold_state_set : forall b ks st,
  NoDup (map fst st) -> incl ks (map fst st) ->
  fold_left (fun acc iid => state_set iid b acc) ks st
  = map (fun ib => if existsb (String.eqb (fst ib)) ks then (fst ib, b) else ib) st.
Proof.
  intros b ks. induction ks as [|k ks IH]; intros st Hnd Hin.
  - simpl. symmetry. apply map_id.
  - cbn [fold_left].
    assert (Hk : In k (map fst st)) by (apply Hin; now left).
    rewrite IH.
    + rewrite (state_set_map k b st Hnd Hk), map_map. apply map_ext.
      intros [j d]. cbn [fst existsb].
      destruct (String.eqb j k) eqn:E; cbn [fst orb]; [|reflexivity].
      now destruct (existsb (String.eqb j) ks).
    + now rewrite state_set_keys.
    + rewrite state_set_keys by assumption. intros x Hx. apply Hin. now right.
Qed.

(** X24.  "Toggle All Selections" leaves every box in the same state:
    unchecked if all were checked, checked otherwise; the rows and their
    order stay.  Used twice on a non-empty list it leaves every box checked
    if all were checked at the start and every box unchecked otherwise, so
    it does not restore a mixed selection. *)
Theorem toggle_all_uniform : forall st : checkbox_state,
  NoDup (map fst st) ->
  let all_selected := match st with [] => false | _ => forallb snd st end in
  toggle_all st = map (fun ib => (fst ib, negb all_selected)) st /\
  (st <> [] ->
   toggle_all (toggle_all st) = map (fun ib => (fst ib, all_selected)) st).
Proof.
  assert (T : forall st, NoDup (map fst st) ->
    toggle_all st
    = map (fun ib => (fst ib,
                      negb match st with [] => false | _ => forallb snd st end)) st).
  { intros st Hnd. unfold toggle_all.
    rewrite fold_state_set by (try assumption; apply incl_refl).
    apply map_ext_in. intros [j d] Hj. cbn [fst].
    replace (existsb (String.eqb j) (map fst st)) with true; [reflexivity|].
    symmetry. apply existsb_exists. exists j.
    split; [|apply String.eqb_refl]. apply in_map_iff. exists (j, d). auto. }
  assert (C : forall (b : bool) (l : checkbox_state),
    forallb snd (map (fun ib : string * bool => (fst ib, b)) l)
    = (b || match l with [] => true | _ => false end)%bool).
  { intros b l. induction l as [|[j d] l IH]; [now rewrite orb_true_r|].
    cbn [map forallb snd fst]. rewrite IH. now destruct b, l. }
  intros st Hnd all_selected. split; [now apply T|].
  intros Hne. rewrite (T st Hnd). fold all_selected.
  rewrite T by (rewrite map_map; cbn [fst]; exact Hnd).
  rewrite map_map. cbn [fst].
  destruct st as [|[j d] st]; [now elim Hne|].
  cbn [map].
  change ((fst (j, d), negb all_selected)
          :: map (fun ib : string * bool => (fst ib, negb all_selected)) st)
    with (map (fun ib : string * bool => (fst ib, negb all_selected)) ((j, d) :: st)).
  rewrite C, orb_false_r, negb_involutive. reflexivity.
Qed.

Lemma toggle_all_uniform_witness :
  NoDup (map fst [("I001", true); ("I002", false)]) /\
  toggle_all [("I001", true); ("I002", false)] = [("I001", true); ("I002", true)] /\
  toggle_all (toggle_all [("I001", true); ("I002", false)])
  = [("I001", false); ("I002", false)].
Proof.
  assert (N : NoDup (map fst [("I001", true); ("I002", false)])).
  { simpl. repeat constructor; simpl; intuition discriminate. }
  split; [exact N|].
  destruct (toggle_all_uniform [("I001", true); ("I002", false)] N) as [T1 T2].
  split; [exact T1|]. apply T2. discriminate.
Defined.

(** ** From the check boxes to the deletion *)

Lemma find_skip : forall (pre tree : list (string * row)) (k : string),
  ~ In k (map fst pre) ->
  find (fun ir : string * row => String.eqb (fst ir) k) (pre ++ tree)
  = find (fun ir : string * row => String.eqb (fst ir) k) tree.
Proof.
  intros pre tree k. induction pre as [|[j r] pre IH]; intros H; [reflexivity|].
  cbn [app find fst]. destruct (String.eqb_spec j k) as [->|_].
  - exfalso. apply H. now left.
  - apply IH. intros Hin. apply H. now right.
Qed.

Lemma checked_all_rows : forall (iids : list string) (rows pre : list (string * row)),
  NoDup iids -> map fst rows = iids ->
  (forall k, In k iids -> ~ In k (map fst pre)) ->
  checked_serials (pre ++ rows) (map (fun iid => (iid, true)) iids)
  = map (fun ir => checked_serial (snd ir)) rows.
Proof.
  induction iids as [|i iids IH]; intros rows pre Hnd Hk Hpre.
  - destruct rows; [reflexivity|discriminate].
  - destruct rows as [|[j r] rows]; [discriminate|].
    cbn [map fst] in Hk. injection Hk as -> Hk.
    inversion Hnd as [|? ? Hi Hnd']; subst.
    unfold checked_serials in *. cbn [map flat_map snd fst].
    rewrite find_skip by (apply Hpre; now left).
    cbn [find fst]. rewrite String.eqb_refl. cbn [app snd]. f_equal.
    replace (pre ++ (i, r) :: rows) with ((pre ++ [(i, r)]) ++ rows)
      by now rewrite <- app_assoc.
    apply IH; [assumption|reflexivity|].
    intros k Hin. rewrite map_app, in_app_iff. cbn [map fst In].
    intros [H|[->|[]]]; [|contradiction].
    revert H. apply Hpre. now right.
Qed.

Lemma checked_unchecked : forall tree ks, checked_serials tree (unchecked ks) = [].
Proof.
  intros tree ks. unfold checked_serials, unchecked.
  induction ks as [|k ks IH]; [reflexivity|exact IH].
Qed.

(** X25.  Right after a refresh no box is checked, so "Delete Selected"
    only warns.  After "Toggle All Selections" on a freshly listed page
    every listed row is checked, and "Delete Selected" then removes from the
    table every row whose serial is handed back for a listed row and
    reports the number of listed rows. *)
Theorem toggle_all_then_delete :
  forall (df : table) (page : list (string * row)),
  NoDup (map fst page) -> page <> [] ->
  let fresh := unchecked (map fst page) in
  let serials := map (fun ir => checked_serial (snd ir)) page in
  checked_serials page fresh = [] /\
  _delete_checked df (checked_serials page fresh) true = Rejected NothingChecked /\
  checked_serials page (toggle_all fresh) = serials /\
  _delete_checked df (checked_serials page (toggle_all fresh)) true
  = Done (save_patients
            (filter (fun r => negb (isin serials (get SerialNo r))) df),
          List.length page).
Proof.
  intros df page Hnd Hne fresh serials.
  assert (Hfresh : checked_serials page fresh = [])
    by apply checked_unchecked.
  assert (Hkeys : map fst fresh = map fst page).
  { unfold fresh, unchecked. rewrite map_map. apply map_id. }
  assert (Htog : toggle_all fresh = map (fun iid => (iid, true)) (map fst page)).
  { destruct (toggle_all_uniform fresh) as [T _]; [now rewrite Hkeys|].
    rewrite T. unfold fresh, unchecked. rewrite map_map. cbn [fst].
    destruct (map fst page) as [|k ks] eqn:E; [reflexivity|].
    cbn [map forallb snd andb negb]. reflexivity. }
  assert (Hall : checked_serials page (toggle_all fresh) = serials).
  { rewrite Htog. apply (checked_all_rows (map fst page) page []);
      [assumption|reflexivity|intros k _ []]. }
  split; [exact Hfresh|]. split; [now rewrite Hfresh|]. split; [exact Hall|].
  rewrite Hall. unfold _delete_checked, serials.
  destruct page as [|ir page]; [now elim Hne|].
  cbn [map List.length negb]. now rewrite length_map.
Qed.

Lemma toggle_all_then_delete_witness :
  let page := [("I001", srow "1"); ("I002", srow "2")] in
  NoDup (map fst page) /\ page <> [] /\
  _delete_checked three_serials
    (checked_serials page (toggle_all (unchecked (map fst page)))) true
  = Done ([srow "3"], 2%nat).
Proof.
  intros page.
  assert (N : NoDup (map fst page)).
  { simpl. repeat constructor; simpl; intuition discriminate. }
  assert (E : page <> []) by discriminate.
  split; [exact N|]. split; [exact E|].
  destruct (toggle_all_then_delete three_serials page N E) as (_ & _ & _ & D).
  exact D.
Defined.

(** ** Serial edits and the duplicates list *)

Lemma keys_agree_same_key : forall a b x y,
  keys_agree a b -> keys_agree x y -> same_key a x = same_key b y.
Proof.
  intros a b x y Hab Hxy. unfold same_key, dup_cols.
  cbn [forallb]. unfold keys_agree, dup_cols in *.
  rewrite (Hab Name), (Hab Email), (Hab PhoneNo), (Hab AadharNo),
    (Hxy Name), (Hxy Email), (Hxy PhoneNo), (Hxy AadharNo) by (simpl; auto).
  reflexivity.
Qed.

Lemma keys_agree_all_missing : forall a b,
  keys_agree a b -> all_missing a = all_missing b.
Proof.
  intros a b H. unfold all_missing, keys_agree, dup_cols in *. cbn [forallb].
  rewrite (H Name), (H Email), (H PhoneNo), (H AadharNo) by (simpl; auto).
  reflexivity.
Qed.

Lemma keys_agree_check : forall l l',
  Forall2 keys_agree l l' -> Forall2 keys_agree (df_for_check l) (df_for_check l').
Proof.
  intros l l' H. unfold df_for_check. induction H as [|a b l l' Hab _ IH];
    [constructor|]. cbn [filter]. rewrite (keys_agree_all_missing a b Hab).
  destruct (all_missing b); cbn [negb]; [exact IH|now constructor].
Qed.

Lemma keys_agree_duplicated : forall chk chk' a b,
  Forall2 keys_agree chk chk' -> keys_agree a b ->
  duplicated chk a = duplicated chk' b.
Proof.
  intros chk chk' a b H Hab. unfold duplicated. f_equal.
  induction H as [|x y l l' Hxy _ IH]; [reflexivity|]. cbn [filter].
  rewrite (keys_agree_same_key a b x y Hab Hxy).
  destruct (same_key b y); cbn [List.length]; now rewrite IH.
Qed.

Lemma keys_agree_dups_length : forall l l',
  Forall2 keys_agree l l' ->
  List.length (df_dups l) = List.length (df_dups l').
Proof.
  intros l l' H. unfold df_dups.
  rewrite <- (Permutation_length (stable_sort_perm name_serial_leb _)).
  rewrite <- (Permutation_length (stable_sort_perm name_serial_leb _)).
  apply keys_agree_check in H.
  set (chk := df_for_check l) in *. set (chk' := df_for_check l') in *.
  assert (G : forall m m', Forall2 keys_agree m m' ->
            List.length (filter (duplicated chk) m)
            = List.length (filter (duplicated chk') m')).
  { intros m m' Hm. induction Hm as [|a b m m' Hab _ IH]; [reflexivity|].
    cbn [filter]. rewrite (keys_agree_duplicated chk chk' a b H Hab).
    destruct (duplicated chk' b); cbn [List.length]; now rewrite IH. }
  now apply G.
Qed.

Lemma keys_agree_update : forall (f : row -> row) df idx,
  (forall r, keys_agree r (f r)) -> Forall2 keys_agree df (update_at idx f df).
Proof.
  intros f df. induction df as [|r df IH]; intros idx Hf;
    [destruct idx; constructor|].
  destruct idx as [|k]; cbn [update_at]; constructor; auto.
  - clear. induction df; constructor; [intros c _; reflexivity|assumption].
  - intros c _. reflexivity.
Qed.

(** X26.  Changing a serial number on the duplicates page does not take a
    record off that page: the serial number is not one of the columns
    compared, so on a loaded table the page lists as many rows after the
    edit as before. *)
Theorem edit_duplicate_serial_keeps_duplicates :
  forall (df df' : table) (original : tkval) (new_serial : option string),
  save_patients df = df ->
  _edit_duplicate_serial df original new_serial = Done df' ->
  List.length (df_dups df') = List.length (df_dups df).
Proof.
  intros df df' original new_serial Hload. unfold _edit_duplicate_serial.
  destruct new_serial as [ns|]; [|discriminate].
  destruct (is_empty ns || tk_eq_text ns original); [discriminate|].
  destruct (Py.isdigit ns) eqn:Hd; [|discriminate]. cbn [negb].
  destruct (in_values ns (col SerialNo df)); [discriminate|].
  destruct (index_of_serial (tk_str original) df) as [|idx rest]; [discriminate|].
  intros [= <-].
  assert (Hna : is_na_text ns = false).
  { apply not_true_is_false. intros Hna. apply na_text_not_digit in Hna.
    congruence. }
  rewrite save_update_loaded
    by (try assumption; intros; now apply reload_set_serial).
  symmetry. apply keys_agree_dups_length. apply keys_agree_update.
  intros r c Hc. symmetry. apply get_set_other.
  intros ->. simpl in Hc. intuition discriminate.
Qed.

Lemma edit_duplicate_serial_keeps_duplicates_witness :
  save_patients three_patients = three_patients /\
  exists df',
    _edit_duplicate_serial three_patients (TInt 3) (Some "30") = Done df' /\
    List.length (df_dups df') = 2%nat.
Proof.
  split; [reflexivity|]. eexists. split; [reflexivity|].
  exact (edit_duplicate_serial_keeps_duplicates three_patients _ (TInt 3)
           (Some "30") eq_refl eq_refl).
Defined.

(** ** The serial offered after a registration *)



(** ** Columns a sheet does not have *)

(** X28.  Reading a sheet for import gives every schema column: a column
    the sheet has keeps its cells, a column it lacks is filled with empty
    text, which the reload then turns into the missing value. *)
Theorem fill_missing_columns : forall (has : column -> bool) (c : column) (r : row),
  get c (fill_missing has r) = (if has c then get c r else CStr "") /\
  (has c = false -> get c (reload_row (fill_missing has r)) = CNaN).
Proof.
  intros has c r. split; [apply get_fill_missing|].
  intros H. now rewrite get_reload_row, get_fill_missing, H.
Qed.
